(** * Point-source rupture enumeration and rupture geometry (oq-hazardlib)

    A shallow embedding of [nhe/source/point.py] and
    [openquake/hazardlib/pmf.py], and the properties of the enumeration
    of ruptures, of the rupture dimensions and of the placement of the
    rupture surface inside the seismogenic layer.

    Numbers.  The numbers of the code are IEEE 754 binary64 floats, and
    they are modelled twice.

    [Module Binary64] is the arithmetic of the code: a float is a
    primitive float of Rocq, [+], [-], [*], [/], [abs], [math.sqrt] and
    the comparisons are the correctly rounded operations of the
    hardware, NaN and the infinities included; the functions of the C
    library ([sin], [cos], [tan], [fmod]), whose results the standard
    does not fix, are the fields of a record [Externals]; and float
    division and the functions of [math] raise [ZeroDivisionError] and
    [ValueError] where Python raises them.  What the code computes, the
    rupture dimensions, the vertical shift, the depths of the corners,
    the sum of the probabilities and the tests made on them, is stated
    on this model.

    Outside of that module a float is read as a real number of [R] and
    the operations as the exact ones.  This reading is used for what
    does not depend on the value of a number: the order and the number
    of the ruptures that the generator yields and the arguments each of
    them is built from, the attributes that a constructor assigns, the
    checks that it makes on its arguments and the order it makes them
    in, the exception that a call ends on.  An equation between numbers
    that is proved on the reals is an equation between the expressions of
    the code; [Module Binary64] says what their values are.

    Sequences.  The sources are Python 2: [zip] returns a list, so the
    [data] of a PMF is a list that can be traversed any number of times. *)

From Stdlib Require Import Reals Lra Lia List String ZArith Bool.
From Stdlib Require Floats.
From stdpp Require Import gmap strings.
Import ListNotations.
Local Open Scope R_scope.

(** ** Exceptions and results *)

(** The exception classes the two modules raise, and the one float
    division raises.  [SourceError], [ValueError] and [ZeroDivisionError]
    carry their message; the [%s] of a message template is left
    unformatted. *)
Inductive exn : Type :=
| SourceError (msg : string)
| ValueError (msg : string)
| AssertionError
| ZeroDivisionError (msg : string).

Inductive result (A : Type) : Type :=
| Ok (a : A)
| Raise (e : exn).
Arguments Ok {A} a.
Arguments Raise {A} e.

Definition rbind {A B : Type} (c : result A) (k : A -> result B) : result B :=
  match c with
  | Ok a => k a
  | Raise e => Raise e
  end.

Notation "x <-- c ;; k" := (rbind c (fun x => k))
  (at level 100, c at next level, right associativity).

Definition is_ok {A : Type} (c : result A) : Prop :=
  match c with Ok _ => True | Raise _ => False end.

(** Comparisons of floats, read as real numbers, as booleans. *)
Definition ltb (x y : R) : bool := if Rlt_dec x y then true else false.
Definition leb (x y : R) : bool := if Rle_dec x y then true else false.
Definition gtb (x y : R) : bool := ltb y x.
Definition geb (x y : R) : bool := leb y x.
Definition neqb (x y : R) : bool := if Req_dec_T x y then false else true.

(** [float(x)]. *)
Definition float (x : R) : R := x.

(** [sum(xs)]: the built-in adds from the left, starting at 0.  The
    additions are exact here and rounded in [Binary64.builtin_sum]. *)
Definition builtin_sum (xs : list R) : R := fold_left Rplus xs 0.

(** ** [openquake/hazardlib/pmf.py] *)

Module PMF.

Record t (V : Type) : Type := Build { data : list (R * V) }.
Arguments Build {V} data.
Arguments data {V} _.

(** [1E-15], the default of [epsilon]. *)
Definition epsilon_default : R := 1 / 10 ^ 15.

(** [zip( *data )] unpacked into two names: [zip()] of no argument is the
    empty list, and unpacking it into [probs, values] raises. *)
Definition zip_star {V : Type} (data : list (R * V))
  : result (list R * list V) :=
  match data with
  | [] => Raise (ValueError "need more than 0 values to unpack")
  | _ :: _ => Ok (split data)
  end.

Definition __init__ {V : Type} (data : list (R * V)) (epsilon : R)
  : result (t V) :=
  pv <-- zip_star data ;;
  let (probs, values) := pv in
  if existsb (fun prob => ltb prob 0) probs then
    Raise (ValueError "a probability in %s is not positive")
  else if gtb (Rabs (float (builtin_sum probs) - 1) ) epsilon then
    Raise (ValueError "probabilities %s do not sum up to 1.0")
  else
    Ok (Build (combine (map float probs) values)).

End PMF.


(** ** Angles *)

(** [math.radians] and [numpy.degrees]. *)
Definition radians (x : R) : R := x * PI / 180.
Definition degrees (x : R) : R := x * 180 / PI.

(** [x % m] on floats: the remainder of the floored division. *)
Definition pymod (x m : R) : R := x - m * IZR (Int_part (x / m)).

(** ** The geodetic primitive [azimuth] *)

Module Geodetic.

(** The angle of the vector [(x, y)] from the x axis, in (-PI, PI], the
    value 0 being chosen at the origin. *)
Definition atan2 (y x : R) : R :=
  if Rlt_dec 0 x then atan (y / x)
  else if Rlt_dec x 0 then
    if Rle_dec 0 y then atan (y / x) + PI else atan (y / x) - PI
  else if Rlt_dec 0 y then PI / 2
  else if Rlt_dec y 0 then - (PI / 2)
  else 0.

(** Modelled from the spec: [nhlib/geo/geodetic.py] is missing from the
    sources (only its tests are there).  [azimuth] is the initial bearing
    of the great circle from point 1 to point 2, in degrees, measured
    clockwise from north and brought into [0, 360). *)
Definition azimuth (lon1 lat1 lon2 lat2 : R) : R :=
  let phi1 := radians lat1 in
  let phi2 := radians lat2 in
  let dlon := radians (lon2 - lon1) in
  let east := sin dlon * cos phi2 in
  let north := cos phi1 * sin phi2 - sin phi1 * cos phi2 * cos dlon in
  let bearing := degrees (atan2 east north) in
  if Rlt_dec bearing 0 then bearing + 360 else bearing.

(** The meaning of the initial bearing: points of the unit sphere, the
    unit vectors to the east and to the north at a point, and the length
    of the part of the direction to point 2 that is tangent at point 1. *)
Definition vec : Type := R * R * R.
Definition dot (u v : vec) : R :=
  let '(u1, u2, u3) := u in
  let '(v1, v2, v3) := v in
  u1 * v1 + u2 * v2 + u3 * v3.
Definition on_sphere (lon lat : R) : vec :=
  (cos (radians lat) * cos (radians lon),
   cos (radians lat) * sin (radians lon),
   sin (radians lat)).
Definition east_at (lon lat : R) : vec :=
  (- sin (radians lon), cos (radians lon), 0).
Definition north_at (lon lat : R) : vec :=
  (- sin (radians lat) * cos (radians lon),
   - sin (radians lat) * sin (radians lon),
   cos (radians lat)).
Definition eastward (lon1 lat1 lon2 lat2 : R) : R :=
  dot (on_sphere lon2 lat2) (east_at lon1 lat1).
Definition northward (lon1 lat1 lon2 lat2 : R) : R :=
  dot (on_sphere lon2 lat2) (north_at lon1 lat1).
End Geodetic.

(** ** The data model *)

(** [nhe.geo.Point]: longitude and latitude in degrees, depth in km. *)
Record Point : Type := mkPoint {
  longitude : R;
  latitude : R;
  depth : R
}.

(** [nhe.common.nodalplane.NodalPlane]. *)
Record NodalPlane : Type := mkNodalPlane {
  strike : R;
  dip : R;
  rake : R
}.

(** The nodal planes of the data model: strike in [0, 360), dip in
    (0, 90], rake in [-180, 180]. *)
Definition valid_nodal_plane (np : NodalPlane) : Prop :=
  0 <= strike np < 360 /\ 0 < dip np <= 90 /\ -180 <= rake np <= 180.

(** The magnitude-frequency distribution, an external collaborator: the
    pairs (magnitude, annual rate) that [get_annual_occurrence_rates()]
    gives. *)
Record MFD : Type := mkMFD {
  get_annual_occurrence_rates : list (R * R)
}.

(** The magnitude-scaling relationship, an external collaborator:
    [get_median_area(mag, rake)]. *)
Record MSR : Type := mkMSR {
  get_median_area : R -> R -> R
}.

(** [nhe.geo.surface.planar.PlanarSurface], four corners. *)
Record PlanarSurface : Type := mkPlanarSurface {
  top_left : Point;
  top_right : Point;
  bottom_right : Point;
  bottom_left : Point
}.

(** The attributes of a fully constructed [PointSource]. *)
Record PointSource : Type := mkPointSource {
  source_id : string;
  name : string;
  tectonic_region_type : string;
  mfd : MFD;
  location : Point;
  nodal_plane_distribution : PMF.t NodalPlane;
  hypocenter_distribution : PMF.t R;
  upper_seismogenic_depth : R;
  lower_seismogenic_depth : R;
  magnitude_scaling_relationship : MSR;
  rupture_aspect_ratio : R
}.

(** The values an attribute of the object under construction holds. *)
Inductive pyobj : Type :=
| PyStr (s : string)
| PyFloat (x : R)
| PyPoint (p : Point)
| PyMFD (m : MFD)
| PyMSR (m : MSR)
| PyNodalPMF (p : PMF.t NodalPlane)
| PyDepthPMF (p : PMF.t R).

(** [self.__dict__] while [__init__] runs: an attribute that has not been
    assigned is absent. *)
Definition instance : Type := gmap string pyobj.

Definition setattr (self : instance) (attr : string) (v : pyobj) : instance :=
  <[attr := v]> self.

Definition as_str (o : pyobj) : option string :=
  match o with PyStr s => Some s | _ => None end.
Definition as_float (o : pyobj) : option R :=
  match o with PyFloat x => Some x | _ => None end.
Definition as_point (o : pyobj) : option Point :=
  match o with PyPoint p => Some p | _ => None end.
Definition as_mfd (o : pyobj) : option MFD :=
  match o with PyMFD m => Some m | _ => None end.
Definition as_msr (o : pyobj) : option MSR :=
  match o with PyMSR m => Some m | _ => None end.
Definition as_nodal_pmf (o : pyobj) : option (PMF.t NodalPlane) :=
  match o with PyNodalPMF p => Some p | _ => None end.
Definition as_depth_pmf (o : pyobj) : option (PMF.t R) :=
  match o with PyDepthPMF p => Some p | _ => None end.

(** The attributes [PointSource.__init__] assigns itself, and the ones
    its base class assigns. *)
Definition point_source_attrs : list string :=
  ["location"; "nodal_plane_distribution"; "hypocenter_distribution";
   "upper_seismogenic_depth"; "lower_seismogenic_depth";
   "magnitude_scaling_relationship"; "rupture_aspect_ratio"]%string.

Definition seismic_source_attrs : list string :=
  ["source_id"; "name"; "tectonic_region_type"; "mfd"]%string.

(** The object as the methods read it, once every attribute is there. *)
Definition view (self : instance) : option PointSource :=
  a1 ← self !! "source_id"%string ≫= as_str;
  a2 ← self !! "name"%string ≫= as_str;
  a3 ← self !! "tectonic_region_type"%string ≫= as_str;
  a4 ← self !! "mfd"%string ≫= as_mfd;
  a5 ← self !! "location"%string ≫= as_point;
  a6 ← self !! "nodal_plane_distribution"%string ≫= as_nodal_pmf;
  a7 ← self !! "hypocenter_distribution"%string ≫= as_depth_pmf;
  a8 ← self !! "upper_seismogenic_depth"%string ≫= as_float;
  a9 ← self !! "lower_seismogenic_depth"%string ≫= as_float;
  a10 ← self !! "magnitude_scaling_relationship"%string ≫= as_msr;
  a11 ← self !! "rupture_aspect_ratio"%string ≫= as_float;
  Some (mkPointSource a1 a2 a3 a4 a5 a6 a7 a8 a9 a10 a11).

(** ** [nhe/source/point.py]: construction *)

(** Modelled from the spec: [nhe/source/base.py] is missing from the
    sources.  [SeismicSource.__init__] stores the identifier, the name,
    the tectonic region type and the magnitude-frequency distribution. *)
Definition SeismicSource___init__ (self : instance)
    (source_id name tectonic_region_type : string) (mfd : MFD) : instance :=
  let self := setattr self "source_id" (PyStr source_id) in
  let self := setattr self "name" (PyStr name) in
  let self :=
    setattr self "tectonic_region_type" (PyStr tectonic_region_type) in
  setattr self "mfd" (PyMFD mfd).

(** [all(upper <= depth <= lower for (prob, depth) in data)]. *)
Definition all_depths_within (upper lower : R) (data : list (R * R)) : bool :=
  forallb (fun pd => leb upper (snd pd) && leb (snd pd) lower) data.

(** [PointSource.__init__]: the object as the method leaves it, and
    whether it returned or raised. *)
Definition PointSource___init__ (self : instance)
    (source_id name tectonic_region_type : string) (mfd : MFD)
    (location : Point)
    (nodal_plane_distribution : PMF.t NodalPlane)
    (hypocenter_distribution : PMF.t R)
    (upper_seismogenic_depth lower_seismogenic_depth : R)
    (magnitude_scaling_relationship : MSR)
    (rupture_aspect_ratio : R) : instance * result unit :=
  let self :=
    SeismicSource___init__ self source_id name tectonic_region_type mfd in
  if ltb upper_seismogenic_depth 0 then
    (self, Raise (SourceError "upper seismogenic depth must be non-negative"))
  else if negb (gtb lower_seismogenic_depth upper_seismogenic_depth) then
    (self, Raise (SourceError
       "lower seismogenic depth must be below upper seismogenic depth"))
  else if negb (all_depths_within upper_seismogenic_depth
                  lower_seismogenic_depth
                  (PMF.data hypocenter_distribution)) then
    (self, Raise (SourceError
       "depths of all hypocenters must be in between lower and upper seismogenic depths"))
  else if negb (gtb rupture_aspect_ratio 0) then
    (self, Raise (SourceError "rupture aspect ratio must be positive"))
  else
    let self := setattr self "location" (PyPoint location) in
    let self := setattr self "nodal_plane_distribution"
                  (PyNodalPMF nodal_plane_distribution) in
    let self := setattr self "hypocenter_distribution"
                  (PyDepthPMF hypocenter_distribution) in
    let self := setattr self "upper_seismogenic_depth"
                  (PyFloat upper_seismogenic_depth) in
    let self := setattr self "lower_seismogenic_depth"
                  (PyFloat lower_seismogenic_depth) in
    let self := setattr self "magnitude_scaling_relationship"
                  (PyMSR magnitude_scaling_relationship) in
    let self := setattr self "rupture_aspect_ratio"
                  (PyFloat rupture_aspect_ratio) in
    (self, Ok tt).

(** [PointSource(...)]: [s] is the object the call evaluates to. *)
Definition constructs (s : PointSource) : Prop :=
  exists self,
    PointSource___init__ ∅ (source_id s) (name s) (tectonic_region_type s)
      (mfd s) (location s) (nodal_plane_distribution s)
      (hypocenter_distribution s) (upper_seismogenic_depth s)
      (lower_seismogenic_depth s) (magnitude_scaling_relationship s)
      (rupture_aspect_ratio s) = (self, Ok tt)
    /\ view self = Some s.

(** ** [nhe/source/point.py]: rupture dimensions *)

(** The method in exact arithmetic, as the enumeration of the ruptures
    calls it; [Binary64._get_rupture_dimensions] is the method in the
    arithmetic of the code, with the exceptions of its divisions. *)
Definition _get_rupture_dimensions (self : PointSource) (mag : R)
    (nodal_plane : NodalPlane) : R * R :=
  let area :=
    get_median_area (magnitude_scaling_relationship self) mag
      (rake nodal_plane) in
  let rup_length := sqrt (area * rupture_aspect_ratio self) in
  let rup_width := area / rup_length in
  let seismogenic_layer_width :=
    lower_seismogenic_depth self - upper_seismogenic_depth self in
  let max_width :=
    seismogenic_layer_width / sin (radians (dip nodal_plane)) in
  if gtb rup_width max_width then
    let rup_width := max_width in
    let rup_length := area / rup_width in
    (rup_length, rup_width)
  else
    (rup_length, rup_width).

(** The vertical shift of [_get_rupture_surface] (the block that starts at
    [vshift = self.upper_seismogenic_depth - hypocenter.depth + hheight]). *)
Definition vertical_shift (self : PointSource) (hypocenter : Point)
    (hheight : R) : R :=
  let vshift := upper_seismogenic_depth self - depth hypocenter + hheight in
  if ltb vshift 0 then
    let vshift := lower_seismogenic_depth self - depth hypocenter - hheight in
    if gtb vshift 0 then 0 else vshift
  else vshift.

(** [nhe.source.base.ProbabilisticRupture]: the seven values the
    enumeration passes to it, the temporal occurrence model being opaque. *)
Record ProbabilisticRupture (TOM : Type) : Type := mkProbabilisticRupture {
  r_mag : R;
  r_nodal_plane : NodalPlane;
  r_tectonic_region_type : string;
  r_hypocenter : Point;
  r_surface : PlanarSurface;
  r_occurrence_rate : R;
  r_temporal_occurrence_model : TOM
}.
Arguments mkProbabilisticRupture {TOM}.
Arguments r_mag {TOM}.
Arguments r_nodal_plane {TOM}.
Arguments r_tectonic_region_type {TOM}.
Arguments r_hypocenter {TOM}.
Arguments r_surface {TOM}.
Arguments r_occurrence_rate {TOM}.
Arguments r_temporal_occurrence_model {TOM}.

(** The loop variables of [_iter_ruptures_at_location] at its [yield]:
    for each of the three [for] loops the current item and what its
    iterator has left. *)
Record frame : Type := mkFrame {
  f_mags : list (R * R);
  f_mag : R;
  f_mag_occ_rate : R;
  f_nps : list (R * NodalPlane);
  f_np_prob : R;
  f_np : NodalPlane;
  f_hcs : list (R * R);
  f_hc_prob : R;
  f_hc_depth : R
}.

(** Where a generator stands: its body has not started, it is suspended
    at the [yield], or it has returned or raised. *)
Inductive gen_pc : Type :=
| NotStarted
| Suspended (fr : frame)
| Finished.

(** What [next(gen)] does. *)
Inductive step_result (A : Type) : Type :=
| Yielded (a : A)
| StopIteration
| Raised (e : exn).
Arguments Yielded {A} a.
Arguments StopIteration {A}.
Arguments Raised {A} e.

(** How the consumption of a generator ended. *)
Inductive ending : Type :=
| Exhausted
| Failed (e : exn)
| OutOfFuel.

(** ** The arithmetic of the code: IEEE 754 binary64 *)

Module Binary64.

Import PrimFloat.
#[local] Set Warnings "-inexact-float".
Local Open Scope float_scope.

(** *** Python operations on floats *)

(** [x > y], [x >= y] and [x != y]. *)
Definition gtb (x y : float) : bool := y <? x.
Definition geb (x y : float) : bool := y <=? x.
Definition neqb (x y : float) : bool := negb (x =? y).

(** [float(x)] of a float. *)
Definition to_float (x : float) : float := x.

(** [sum(xs)]: the built-in starts from the integer 0 and adds from the
    left, each addition rounded. *)
Definition builtin_sum (xs : list float) : float := fold_left add xs 0.

(** [x / y]. *)
Definition py_div (x y : float) : result float :=
  if y =? 0 then Raise (ZeroDivisionError "float division by zero")
  else Ok (x / y).

(** The wrapper of the [math] module around a function of the C
    library: a NaN result of an argument that is not NaN, and an
    infinite result of a finite argument, are domain errors. *)
Definition math_1 (f : float -> float) (x : float) : result float :=
  let r := f x in
  if is_nan r && negb (is_nan x) then Raise (ValueError "math domain error")
  else if is_infinity r && is_finite x then
    Raise (ValueError "math domain error")
  else Ok r.

Definition math_sqrt (x : float) : result float := math_1 sqrt x.

(** [math.pi] and [math.radians], which multiplies by [pi / 180]. *)
Definition pi : float := 3.141592653589793.
Definition radians (x : float) : float := x * (pi / 180).

(** What the sources call and do not contain: [sin], [cos], [tan] and
    [fmod] of the C library, and [nhe.geo.geodetic.point_at(lon, lat,
    azimuth, distance)]. *)
Record Externals : Type := mkExternals {
  libm_sin : float -> float;
  libm_cos : float -> float;
  libm_tan : float -> float;
  libm_fmod : float -> float -> float;
  geodetic_point_at : float -> float -> float -> float -> float * float
}.

Definition math_sin (ext : Externals) : float -> result float :=
  math_1 (libm_sin ext).
Definition math_cos (ext : Externals) : float -> result float :=
  math_1 (libm_cos ext).
Definition math_tan (ext : Externals) : float -> result float :=
  math_1 (libm_tan ext).

(** [x % w] on floats: [fmod], then the sign of the divisor. *)
Definition py_mod (ext : Externals) (x w : float) : result float :=
  if w =? 0 then Raise (ZeroDivisionError "float modulo")
  else
    let m := libm_fmod ext x w in
    if m =? 0 then Ok (if w <? 0 then neg_zero else zero)
    else if xorb (w <? 0) (m <? 0) then Ok (m + w)
    else Ok m.

(** *** [openquake/hazardlib/pmf.py] *)

Module PMF.

Record t (V : Type) : Type := Build { data : list (float * V) }.
Arguments Build {V} data.
Arguments data {V} _.

(** [1E-15], the default of [epsilon]. *)
Definition epsilon_default : float := 1e-15.

Definition zip_star {V : Type} (data : list (float * V))
  : result (list float * list V) :=
  match data with
  | [] => Raise (ValueError "need more than 0 values to unpack")
  | _ :: _ => Ok (split data)
  end.

Definition __init__ {V : Type} (data : list (float * V)) (epsilon : float)
  : result (t V) :=
  pv <-- zip_star data ;;
  let (probs, values) := pv in
  if existsb (fun prob => prob <? 0) probs then
    Raise (ValueError "a probability in %s is not positive")
  else if gtb (abs (to_float (builtin_sum probs) - 1)) epsilon then
    Raise (ValueError "probabilities %s do not sum up to 1.0")
  else
    Ok (Build (combine (map to_float probs) values)).

End PMF.

(** *** The data model *)

Record Point : Type := mkPoint {
  longitude : float;
  latitude : float;
  depth : float
}.

Record NodalPlane : Type := mkNodalPlane {
  strike : float;
  dip : float;
  rake : float
}.

Record MSR : Type := mkMSR {
  get_median_area : float -> float -> float
}.

Record PlanarSurface : Type := mkPlanarSurface {
  top_left : Point;
  top_right : Point;
  bottom_right : Point;
  bottom_left : Point
}.

(** The attributes of a [PointSource] that [_get_rupture_dimensions] and
    [_get_rupture_surface] read. *)
Record PointSource : Type := mkPointSource {
  upper_seismogenic_depth : float;
  lower_seismogenic_depth : float;
  magnitude_scaling_relationship : MSR;
  rupture_aspect_ratio : float
}.

(** Modelled from the spec: [nhe/geo/point.py] is missing from the
    sources.  [Point.point_at] moves the point horizontally by the
    geodetic projection and adds the vertical increment to its depth. *)
Definition point_at (ext : Externals) (p : Point)
    (horizontal_distance vertical_increment azimuth : float) : Point :=
  let (lon, lat) :=
    geodetic_point_at ext (longitude p) (latitude p) azimuth
      horizontal_distance in
  mkPoint lon lat (depth p + vertical_increment).

(** *** [nhe/source/point.py]: rupture dimensions *)

Definition _get_rupture_dimensions (ext : Externals) (self : PointSource)
    (mag : float) (nodal_plane : NodalPlane) : result (float * float) :=
  let area :=
    get_median_area (magnitude_scaling_relationship self) mag
      (rake nodal_plane) in
  rup_length <-- math_sqrt (area * rupture_aspect_ratio self) ;;
  rup_width <-- py_div area rup_length ;;
  let seismogenic_layer_width :=
    lower_seismogenic_depth self - upper_seismogenic_depth self in
  sin_rdip <-- math_sin ext (radians (dip nodal_plane)) ;;
  max_width <-- py_div seismogenic_layer_width sin_rdip ;;
  if gtb rup_width max_width then
    let rup_width := max_width in
    rup_length <-- py_div area rup_width ;;
    Ok (rup_length, rup_width)
  else
    Ok (rup_length, rup_width).

(** *** [nhe/source/point.py]: the rupture surface *)

(** The vertical shift (the block that starts at
    [vshift = self.upper_seismogenic_depth - hypocenter.depth + hheight]). *)
Definition vertical_shift (self : PointSource) (hypocenter : Point)
    (hheight : float) : float :=
  let vshift := upper_seismogenic_depth self - depth hypocenter + hheight in
  if vshift <? 0 then
    let vshift := lower_seismogenic_depth self - depth hypocenter - hheight in
    if gtb vshift 0 then 0 else vshift
  else vshift.

(** The geometrical center of the rupture (the block that starts at
    [rupture_center = hypocenter]). *)
Definition rupture_center_of (ext : Externals) (hypocenter : Point)
    (vshift rdip azimuth_up azimuth_down : float) : result Point :=
  let rupture_center := hypocenter in
  if neqb vshift 0 then
    tan_rdip <-- math_tan ext rdip ;;
    quotient <-- py_div vshift tan_rdip ;;
    let hshift := abs quotient in
    Ok (point_at ext rupture_center hshift vshift
          (if vshift <? 0 then azimuth_up else azimuth_down))
  else Ok rupture_center.

(** The four corners, in the order the code computes them: right
    bottom, right top, left top, left bottom. *)
Definition corners (ext : Externals) (rupture_center : Point)
    (rup_length rup_proj_width rup_proj_height : float)
    (azimuth_right azimuth_down azimuth_left azimuth_up : float)
  : Point * Point * Point * Point :=
  let right_center :=
    point_at ext rupture_center (rup_length / 2) 0 azimuth_right in
  let right_bottom :=
    point_at ext right_center (rup_proj_width / 2) (rup_proj_height / 2)
      azimuth_down in
  let right_top :=
    point_at ext right_bottom rup_proj_width (- rup_proj_height) azimuth_up in
  let left_top := point_at ext right_top rup_length 0 azimuth_left in
  let left_bottom := point_at ext right_bottom rup_length 0 azimuth_left in
  (right_bottom, right_top, left_top, left_bottom).

Definition _get_rupture_surface (ext : Externals) (self : PointSource)
    (mag : float) (nodal_plane : NodalPlane) (hypocenter : Point)
  : result PlanarSurface :=
  if negb ((upper_seismogenic_depth self <=? depth hypocenter)
           && geb (lower_seismogenic_depth self) (depth hypocenter)) then
    Raise AssertionError
  else
    let rdip := radians (dip nodal_plane) in
    let azimuth_right := strike nodal_plane in
    azimuth_down <-- py_mod ext (azimuth_right + 90) 360 ;;
    azimuth_left <-- py_mod ext (azimuth_down + 90) 360 ;;
    azimuth_up <-- py_mod ext (azimuth_left + 90) 360 ;;
    dimensions <-- _get_rupture_dimensions ext self mag nodal_plane ;;
    let (rup_length, rup_width) := dimensions in
    sin_rdip <-- math_sin ext rdip ;;
    let rup_proj_height := rup_width * sin_rdip in
    cos_rdip <-- math_cos ext rdip ;;
    let rup_proj_width := rup_width * cos_rdip in
    let hheight := rup_proj_height / 2 in
    let vshift := vertical_shift self hypocenter hheight in
    rupture_center <--
      rupture_center_of ext hypocenter vshift rdip azimuth_up azimuth_down ;;
    let '(right_bottom, right_top, left_top, left_bottom) :=
      corners ext rupture_center rup_length rup_proj_width rup_proj_height
        azimuth_right azimuth_down azimuth_left azimuth_up in
    Ok (mkPlanarSurface left_top right_top right_bottom left_bottom).

(** *** Inputs to run the code on *)




End Binary64.

Section PointSourceMethods.

Set Default Proof Using "Type".

(** The temporal occurrence model is opaque to the source. *)
Variable TOM : Type.

(** [nhe.geo.geodetic.point_at(lon, lat, azimuth, distance)], the forward
    geodetic projection, is not among the sources. *)
Variable geodetic_point_at : R -> R -> R -> R -> R * R.

(** Modelled from the spec: [nhe/geo/point.py] is missing from the
    sources.  [Point.point_at] moves the point horizontally by the
    geodetic projection and changes its depth by the vertical increment,
    independently of each other. *)
Definition point_at (p : Point)
    (horizontal_distance vertical_increment azimuth : R) : Point :=
  let (lon, lat) :=
    geodetic_point_at (longitude p) (latitude p) azimuth horizontal_distance in
  mkPoint lon lat (depth p + vertical_increment).

(** ** [nhe/source/point.py]: the rupture surface *)

(** The geometrical center of the rupture (the block that starts at
    [rupture_center = hypocenter]). *)
Definition rupture_center_of (hypocenter : Point)
    (vshift rdip azimuth_up azimuth_down : R) : Point :=
  let rupture_center := hypocenter in
  if neqb vshift 0 then
    let hshift := Rabs (vshift / tan rdip) in
    point_at rupture_center hshift vshift
      (if ltb vshift 0 then azimuth_up else azimuth_down)
  else rupture_center.

(** The four corners (the block after the rupture center is known), in
    the order the code computes them: right bottom, right top, left top,
    left bottom. *)
Definition corners (rupture_center : Point)
    (rup_length rup_proj_width rup_proj_height : R)
    (azimuth_right azimuth_down azimuth_left azimuth_up : R)
  : Point * Point * Point * Point :=
  let right_center :=
    point_at rupture_center (rup_length / 2) 0 azimuth_right in
  let right_bottom :=
    point_at right_center (rup_proj_width / 2) (rup_proj_height / 2)
      azimuth_down in
  let right_top :=
    point_at right_bottom rup_proj_width (- rup_proj_height) azimuth_up in
  let left_top := point_at right_top rup_length 0 azimuth_left in
  let left_bottom := point_at right_bottom rup_length 0 azimuth_left in
  (right_bottom, right_top, left_top, left_bottom).

Definition _get_rupture_surface (self : PointSource) (mag : R)
    (nodal_plane : NodalPlane) (hypocenter : Point) : result PlanarSurface :=
  if negb (leb (upper_seismogenic_depth self) (depth hypocenter)
           && geb (lower_seismogenic_depth self) (depth hypocenter)) then
    Raise AssertionError
  else
    let rdip := radians (dip nodal_plane) in
    let azimuth_right := strike nodal_plane in
    let azimuth_down := pymod (azimuth_right + 90) 360 in
    let azimuth_left := pymod (azimuth_down + 90) 360 in
    let azimuth_up := pymod (azimuth_left + 90) 360 in
    let (rup_length, rup_width) :=
      _get_rupture_dimensions self mag nodal_plane in
    let rup_proj_height := rup_width * sin rdip in
    let rup_proj_width := rup_width * cos rdip in
    let hheight := rup_proj_height / 2 in
    let vshift := vertical_shift self hypocenter hheight in
    let rupture_center :=
      rupture_center_of hypocenter vshift rdip azimuth_up azimuth_down in
    let '(right_bottom, right_top, left_top, left_bottom) :=
      corners rupture_center rup_length rup_proj_width rup_proj_height
        azimuth_right azimuth_down azimuth_left azimuth_up in
    Ok (mkPlanarSurface left_top right_top right_bottom left_bottom).

(** ** [nhe/source/point.py]: the enumeration of ruptures *)

(** A generator object of [_iter_ruptures_at_location]: the arguments of
    the call, kept until the body runs, and where the body stands. *)
Record generator : Type := mkGenerator {
  g_self : PointSource;
  g_temporal_occurrence_model : TOM;
  g_location : Point;
  g_rate_scaling_factor : R;
  g_pc : gen_pc
}.

(** Calling a generator function runs none of its body. *)
Definition _iter_ruptures_at_location (self : PointSource)
    (temporal_occurrence_model : TOM) (location : Point)
    (rate_scaling_factor : R) : generator :=
  mkGenerator self temporal_occurrence_model location rate_scaling_factor
    NotStarted.

Definition iter_ruptures (self : PointSource)
    (temporal_occurrence_model : TOM) : generator :=
  _iter_ruptures_at_location self temporal_occurrence_model (location self) 1.

(** The innermost [for] takes its next item, or the middle one does and
    the innermost starts again, or the outermost does and the two inner
    ones start again; [None] when the outermost is exhausted. *)
Fixpoint enter_np (self : PointSource) (mags : list (R * R))
    (mag mag_occ_rate : R) (nps : list (R * NodalPlane)) : option frame :=
  match nps with
  | [] => None
  | (np_prob, np) :: nps' =>
      match PMF.data (hypocenter_distribution self) with
      | (hc_prob, hc_depth) :: hcs' =>
          Some (mkFrame mags mag mag_occ_rate nps' np_prob np
                  hcs' hc_prob hc_depth)
      | [] => enter_np self mags mag mag_occ_rate nps'
      end
  end.

Fixpoint enter_mag (self : PointSource) (mags : list (R * R)) : option frame :=
  match mags with
  | [] => None
  | (mag, mag_occ_rate) :: mags' =>
      match enter_np self mags' mag mag_occ_rate
              (PMF.data (nodal_plane_distribution self)) with
      | Some fr => Some fr
      | None => enter_mag self mags'
      end
  end.

Definition advance (self : PointSource) (fr : frame) : option frame :=
  match f_hcs fr with
  | (hc_prob, hc_depth) :: hcs' =>
      Some (mkFrame (f_mags fr) (f_mag fr) (f_mag_occ_rate fr)
              (f_nps fr) (f_np_prob fr) (f_np fr) hcs' hc_prob hc_depth)
  | [] =>
      match enter_np self (f_mags fr) (f_mag fr) (f_mag_occ_rate fr)
              (f_nps fr) with
      | Some fr' => Some fr'
      | None => enter_mag self (f_mags fr)
      end
  end.

(** The body of the innermost loop, up to its [yield]. *)
Definition loop_body (g : generator) (fr : frame)
  : result (ProbabilisticRupture TOM) :=
  let self := g_self g in
  let hypocenter :=
    mkPoint (longitude (g_location g)) (latitude (g_location g))
      (f_hc_depth fr) in
  let occurrence_rate :=
    f_mag_occ_rate fr * float (f_np_prob fr) * float (f_hc_prob fr) in
  let occurrence_rate := occurrence_rate * g_rate_scaling_factor g in
  surface <-- _get_rupture_surface self (f_mag fr) (f_np fr) hypocenter ;;
  Ok (mkProbabilisticRupture (f_mag fr) (f_np fr) (tectonic_region_type self)
        hypocenter surface occurrence_rate (g_temporal_occurrence_model g)).

Definition set_pc (g : generator) (pc : gen_pc) : generator :=
  mkGenerator (g_self g) (g_temporal_occurrence_model g) (g_location g)
    (g_rate_scaling_factor g) pc.

(** Runs the loop body at the position the loops reached. *)
Definition run_to_yield (g : generator) (pos : option frame)
  : step_result (ProbabilisticRupture TOM) * generator :=
  match pos with
  | None => (StopIteration, set_pc g Finished)
  | Some fr =>
      match loop_body g fr with
      | Ok rupture => (Yielded rupture, set_pc g (Suspended fr))
      | Raise e => (Raised e, set_pc g Finished)
      end
  end.

(** [next(gen)]. *)
Definition next (g : generator)
  : step_result (ProbabilisticRupture TOM) * generator :=
  match g_pc g with
  | NotStarted =>
      if negb (ltb 0 (g_rate_scaling_factor g)) then
        (Raised AssertionError, set_pc g Finished)
      else
        run_to_yield g
          (enter_mag (g_self g) (get_annual_occurrence_rates (mfd (g_self g))))
  | Suspended fr => run_to_yield g (advance (g_self g) fr)
  | Finished => (StopIteration, g)
  end.

(** [list(gen)], with a bound on the number of calls of [next]. *)
Fixpoint consume (fuel : nat) (g : generator)
  : list (ProbabilisticRupture TOM) * ending :=
  match fuel with
  | O => ([], OutOfFuel)
  | S fuel' =>
      match next g with
      | (Yielded rupture, g') =>
          let (ruptures, e) := consume fuel' g' in (rupture :: ruptures, e)
      | (StopIteration, _) => ([], Exhausted)
      | (Raised e, _) => ([], Failed e)
      end
  end.

(** *** Generator objects in the heap *)





(** ** Definitions used in the statements and proofs *)

(** The sum of a list of reals, from the right. *)
Fixpoint Rsum (xs : list R) : R :=
  match xs with
  | [] => 0
  | x :: xs' => x + Rsum xs'
  end.

(** The checks of [PointSource.__init__] as a proposition. *)
Definition valid_parameters (upper lower : R) (depths : list (R * R))
    (aspect_ratio : R) : Prop :=
  0 <= upper /\ upper < lower /\
  (forall p d, In (p, d) depths -> upper <= d <= lower) /\
  0 < aspect_ratio.

(** One iteration of the innermost loop: the items of the three loops. *)
Definition combo : Type := (R * R) * (R * NodalPlane) * (R * R).

Definition frame_combo (fr : frame) : combo :=
  ((f_mag fr, f_mag_occ_rate fr), (f_np_prob fr, f_np fr),
   (f_hc_prob fr, f_hc_depth fr)).

Definition combos_hc (m : R * R) (n : R * NodalPlane) (hcs : list (R * R))
  : list combo :=
  map (fun h => (m, n, h)) hcs.

Definition combos_np (self : PointSource) (m : R * R)
    (nps : list (R * NodalPlane)) : list combo :=
  flat_map
    (fun n => combos_hc m n (PMF.data (hypocenter_distribution self))) nps.

Definition combos_mag (self : PointSource) (mags : list (R * R)) : list combo :=
  flat_map
    (fun m => combos_np self m (PMF.data (nodal_plane_distribution self)))
    mags.

(** The iterations a suspended generator still has to run. *)
Definition pending (self : PointSource) (fr : frame) : list combo :=
  combos_hc (f_mag fr, f_mag_occ_rate fr) (f_np_prob fr, f_np fr) (f_hcs fr)
  ++ combos_np self (f_mag fr, f_mag_occ_rate fr) (f_nps fr)
  ++ combos_mag self (f_mags fr).

(** The iterations a generator still has to run, the assertion on the
    rate scaling factor apart. *)
Definition todo (g : generator) : list combo :=
  match g_pc g with
  | NotStarted =>
      combos_mag (g_self g) (get_annual_occurrence_rates (mfd (g_self g)))
  | Suspended fr => pending (g_self g) fr
  | Finished => []
  end.

(** The loop body on the items of one iteration. *)
Definition body_of (g : generator) (c : combo)
  : result (ProbabilisticRupture TOM) :=
  let '((mag, mag_occ_rate), (np_prob, np), (hc_prob, hc_depth)) := c in
  loop_body g (mkFrame [] mag mag_occ_rate [] np_prob np [] hc_prob hc_depth).
(** ** A source to run the model on *)

(** Two magnitudes, two nodal planes and two hypocenter depths in a
    seismogenic layer from 0 to 20 km, and a relationship that gives
    100 km2 to every rupture. *)
Definition example_nodal_plane : NodalPlane := mkNodalPlane 0 90 0.

Definition example_source : PointSource :=
  mkPointSource "1" "point" "Active Shallow Crust"
    (mkMFD [(5, 1 / 10); (6, 1 / 100)])
    (mkPoint 10 45 0)
    (PMF.Build [(1 / 2, example_nodal_plane); (1 / 2, mkNodalPlane 90 45 0)])
    (PMF.Build [(1 / 4, 5); (3 / 4, 10)])
    0 20
    (mkMSR (fun mag rake => 100))
    1.


(** A projection on a plane, 111 km to the degree. *)
Definition flat_point_at (lon lat azimuth distance : R) : R * R :=
  (lon + distance * sin (radians azimuth) / 111,
   lat + distance * cos (radians azimuth) / 111).

(** The arguments of the call stay with the generator. *)
Definition same_call (g g' : generator) : Prop :=
  g_self g' = g_self g /\
  g_temporal_occurrence_model g' = g_temporal_occurrence_model g /\
  g_location g' = g_location g /\
  g_rate_scaling_factor g' = g_rate_scaling_factor g.

(** The assertion on the rate scaling factor is passed, or will pass. *)
Definition passes_assert (g : generator) : Prop :=
  g_pc g = NotStarted -> 0 < g_rate_scaling_factor g.

(** The occurrence rate the loop body computes on the items of one
    iteration. *)
Definition combo_rate (rate_scaling_factor : R) (c : combo) : R :=
  c.1.1.2 * float c.1.2.1 * float c.2.1 * rate_scaling_factor.

(** Two generators of the same call that stand at the same place, for
    locations of the same longitude and latitude. *)
Definition same_place (g g' : generator) : Prop :=
  g_self g' = g_self g /\
  g_temporal_occurrence_model g' = g_temporal_occurrence_model g /\
  g_rate_scaling_factor g' = g_rate_scaling_factor g /\
  g_pc g' = g_pc g /\
  longitude (g_location g') = longitude (g_location g) /\
  latitude (g_location g') = latitude (g_location g).

(** ** Properties of [PMF] *)

Lemma ltb_true_iff (x y : R) : ltb x y = true <-> x < y.
Proof.
  unfold ltb. destruct (Rlt_dec x y); split; intros; try easy; try discriminate.
Qed.

Lemma ltb_false_iff (x y : R) : ltb x y = false <-> y <= x.
Proof.
  unfold ltb. destruct (Rlt_dec x y); split; intros; try easy; try lra.
Qed.

Lemma leb_true_iff (x y : R) : leb x y = true <-> x <= y.
Proof.
  unfold leb. destruct (Rle_dec x y); split; intros; try easy; try discriminate.
Qed.

Lemma leb_false_iff (x y : R) : leb x y = false <-> y < x.
Proof.
  unfold leb. destruct (Rle_dec x y); split; intros; try easy; try lra.
Qed.

Lemma neqb_true_iff (x y : R) : neqb x y = true <-> x <> y.
Proof.
  unfold neqb.
  destruct (Req_dec_T x y); split; intros; try easy; try discriminate.
Qed.

Lemma fold_left_Rplus_acc (xs : list R) (a : R) :
  fold_left Rplus xs a = a + Rsum xs.
Proof.
  revert a. induction xs as [|x xs IH]; intros a; simpl.
  - lra.
  - rewrite IH. lra.
Qed.

Lemma sum_Rsum (xs : list R) : builtin_sum xs = Rsum xs.
Proof. unfold builtin_sum. rewrite fold_left_Rplus_acc. lra. Qed.

Lemma combine_map_float_split {V : Type} (data : list (R * V)) :
  combine (map float (fst (split data))) (snd (split data)) =
  map (fun pv => (float (fst pv), snd pv)) data.
Proof.
  induction data as [|[p v] data IH]; simpl; [reflexivity|].
  destruct (split data) as [ps vs]. simpl in *. now rewrite IH.
Qed.

Lemma existsb_neg_iff {V : Type} (data : list (R * V)) :
  existsb (fun prob => ltb prob 0) (fst (split data)) = true <->
  exists p v, In (p, v) data /\ p < 0.
Proof.
  induction data as [|[p v] data IH]; simpl.
  - split; [discriminate | intros (? & ? & [] & _)].
  - destruct (split data) as [ps vs]. simpl in *.
    rewrite orb_true_iff, ltb_true_iff, IH. split.
    + intros [H | (q & w & Hin & Hq)].
      * exists p, v. auto.
      * exists q, w. auto.
    + intros (q & w & [Heq | Hin] & Hq).
      * inversion Heq; subst. now left.
      * right. eauto.
Qed.

Lemma gtb_true_iff (x y : R) : gtb x y = true <-> x > y.
Proof. unfold gtb. rewrite ltb_true_iff. lra. Qed.

Lemma gtb_false_iff (x y : R) : gtb x y = false <-> x <= y.
Proof. unfold gtb. rewrite ltb_false_iff. lra. Qed.

Lemma Rsum_fst_split {V : Type} (data : list (R * V)) :
  Rsum (fst (split data)) = Rsum (map fst data).
Proof.
  induction data as [|[p v] data IH]; simpl; [reflexivity|].
  destruct (split data) as [ps vs]. simpl in *. now rewrite IH.
Qed.

(** The three ways [PMF.__init__] ends on a non-empty sequence. *)
Lemma PMF_init_cases {V : Type} (data : list (R * V)) (epsilon : R) :
  data <> [] ->
  (PMF.__init__ data epsilon =
     Raise (ValueError "a probability in %s is not positive")
   /\ exists p v, In (p, v) data /\ p < 0)
  \/ (PMF.__init__ data epsilon =
        Raise (ValueError "probabilities %s do not sum up to 1.0")
      /\ Rabs (Rsum (map fst data) - 1) > epsilon)
  \/ (PMF.__init__ data epsilon =
        Ok (PMF.Build (map (fun pv => (float (fst pv), snd pv)) data))
      /\ ~ (exists p v, In (p, v) data /\ p < 0)
      /\ ~ Rabs (Rsum (map fst data) - 1) > epsilon).
Proof.
  intros Hne. unfold PMF.__init__, PMF.zip_star.
  destruct data as [|d data]; [congruence|]. cbn [rbind].
  pose proof (existsb_neg_iff (d :: data)) as Hneg.
  pose proof (combine_map_float_split (d :: data)) as Hcomb.
  pose proof (Rsum_fst_split (d :: data)) as Hsum.
  destruct (split (d :: data)) as [probs values]. cbn [fst snd] in *.
  destruct (existsb (fun prob => ltb prob 0) probs) eqn:Hex.
  - left. split; [reflexivity | now apply Hneg].
  - right.
    replace (float (builtin_sum probs)) with (Rsum (map fst (d :: data)))
      by (unfold float; now rewrite sum_Rsum).
    destruct (gtb (Rabs (Rsum (map fst (d :: data)) - 1)) epsilon) eqn:Hgt.
    + left. split; [reflexivity | now apply gtb_true_iff].
    + right. split; [now rewrite Hcomb|]. split.
      * intros H. apply Hneg in H. discriminate.
      * apply gtb_false_iff in Hgt. lra.
Qed.

(** C9.  [PMF.__init__] on the empty sequence raises (the unpacking of
    [zip()] fails), whatever [epsilon] is, so a PMF that was constructed
    holds at least one pair. *)
Theorem PMF_init_empty_raises {V : Type} (epsilon : R) :
  (exists msg, PMF.__init__ (@nil (R * V)) epsilon = Raise (ValueError msg))
  /\ (forall pmf, PMF.__init__ (@nil (R * V)) epsilon <> Ok pmf)
  /\ (forall (data : list (R * V)) eps pmf,
        PMF.__init__ data eps = Ok pmf ->
        data <> [] /\ PMF.data pmf <> [] /\
        length (PMF.data pmf) = length data).
Proof.
  split; [|split].
  - eexists. reflexivity.
  - intros pmf H. discriminate.
  - intros data eps pmf H.
    destruct data as [|d data]; [discriminate|].
    destruct (PMF_init_cases (d :: data) eps) as [[Hr _] | [[Hr _] | [Hr _]]];
      [discriminate | | |]; rewrite Hr in H; try discriminate.
    injection H as <-. cbn [PMF.data].
    split; [discriminate|]. split; [discriminate|].
    cbn [length]. now rewrite length_map.
Qed.

(** ** Properties of the construction of a [PointSource] *)

Lemma all_depths_within_true (upper lower : R) (data : list (R * R)) :
  all_depths_within upper lower data = true <->
  forall p d, In (p, d) data -> upper <= d <= lower.
Proof.
  unfold all_depths_within. rewrite forallb_forall. split.
  - intros H p d Hin. specialize (H _ Hin). cbn in H.
    apply andb_true_iff in H as [H1 H2].
    apply leb_true_iff in H1. apply leb_true_iff in H2. lra.
  - intros H [p d] Hin. cbn. specialize (H _ _ Hin).
    apply andb_true_iff. split; apply leb_true_iff; lra.
Qed.

Lemma all_depths_within_false (upper lower : R) (data : list (R * R)) :
  all_depths_within upper lower data = false <->
  exists p d, In (p, d) data /\ ~ (upper <= d <= lower).
Proof.
  induction data as [|[p d] data IH]; cbn.
  - split; [discriminate | intros (? & ? & [] & _)].
  - rewrite andb_false_iff, andb_false_iff, !leb_false_iff.
    fold (all_depths_within upper lower data). rewrite IH. split.
    + intros [[H | H] | (q & e & Hin & Hq)].
      * exists p, d. split; [now left | lra].
      * exists p, d. split; [now left | lra].
      * exists q, e. auto.
    + intros (q & e & [Heq | Hin] & Hq).
      * inversion Heq; subst. left.
        destruct (Rle_dec upper e); [|left; lra].
        destruct (Rle_dec e lower); [|right; lra].
        exfalso. apply Hq. split; assumption.
      * right. eauto.
Qed.

(** The four checks of [PointSource.__init__] pass exactly on valid
    parameters, and the method then ends with every attribute assigned. *)
Lemma PointSource_init_outcome (sid nm trt : string) (m : MFD) (loc : Point)
    (npd : PMF.t NodalPlane) (hd : PMF.t R) (upper lower : R) (msr : MSR)
    (ar : R) :
  let run := PointSource___init__ ∅ sid nm trt m loc npd hd upper lower msr ar in
  (valid_parameters upper lower (PMF.data hd) ar /\
   run.2 = Ok tt /\
   view run.1 = Some (mkPointSource sid nm trt m loc npd hd upper lower msr ar))
  \/
  (~ valid_parameters upper lower (PMF.data hd) ar /\
   (exists msg, run.2 = Raise (SourceError msg)) /\
   run.1 = SeismicSource___init__ ∅ sid nm trt m).
Proof.
  unfold PointSource___init__, valid_parameters.
  destruct (ltb upper 0) eqn:H1.
  { right. apply ltb_true_iff in H1. cbn [fst snd].
    split; [lra|]. split; [eauto | reflexivity]. }
  apply ltb_false_iff in H1.
  destruct (gtb lower upper) eqn:H2; cbn [negb].
  2:{ right. apply gtb_false_iff in H2. cbn [fst snd].
      split; [lra|]. split; [eauto | reflexivity]. }
  apply gtb_true_iff in H2.
  destruct (all_depths_within upper lower (PMF.data hd)) eqn:H3; cbn [negb].
  2:{ right. apply all_depths_within_false in H3 as (p & d & Hin & Hd).
      cbn [fst snd]. split; [|split; [eauto | reflexivity]].
      intros (_ & _ & Hall & _). apply Hd. eauto. }
  rewrite all_depths_within_true in H3.
  destruct (gtb ar 0) eqn:H4; cbn [negb].
  2:{ right. apply gtb_false_iff in H4. cbn [fst snd].
      split; [lra|]. split; [eauto | reflexivity]. }
  apply gtb_true_iff in H4. left. cbn [fst snd].
  split; [repeat split; try lra; apply (H3 _ _ H) |].
  split; reflexivity.
Qed.

(** After the call of the base class the object has the four attributes
    of a seismic source and none of a point source. *)
Lemma SeismicSource_init_attrs (sid nm trt : string) (m : MFD) :
  Forall (fun attr => SeismicSource___init__ ∅ sid nm trt m !! attr = None)
    point_source_attrs
  /\ view (SeismicSource___init__ ∅ sid nm trt m) = None.
Proof.
  split; [|reflexivity].
  unfold point_source_attrs. repeat constructor.
Qed.

Lemma SeismicSource_init_assigned (sid nm trt : string) (m : MFD) :
  Forall (fun attr => is_Some (SeismicSource___init__ ∅ sid nm trt m !! attr))
    seismic_source_attrs.
Proof.
  unfold seismic_source_attrs. repeat constructor; eexists; reflexivity.
Qed.

Lemma constructs_valid (s : PointSource) :
  constructs s ->
  valid_parameters (upper_seismogenic_depth s) (lower_seismogenic_depth s)
    (PMF.data (hypocenter_distribution s)) (rupture_aspect_ratio s).
Proof.
  intros (self & Hrun & _).
  destruct (PointSource_init_outcome (source_id s) (name s)
              (tectonic_region_type s) (mfd s) (location s)
              (nodal_plane_distribution s) (hypocenter_distribution s)
              (upper_seismogenic_depth s) (lower_seismogenic_depth s)
              (magnitude_scaling_relationship s) (rupture_aspect_ratio s))
    as [(Hv & _) | (_ & [msg Hr] & _)]; [exact Hv|].
  rewrite Hrun in Hr. discriminate.
Qed.

Lemma valid_constructs (s : PointSource) :
  valid_parameters (upper_seismogenic_depth s) (lower_seismogenic_depth s)
    (PMF.data (hypocenter_distribution s)) (rupture_aspect_ratio s) ->
  constructs s.
Proof.
  intros Hv. unfold constructs.
  destruct (PointSource_init_outcome (source_id s) (name s)
              (tectonic_region_type s) (mfd s) (location s)
              (nodal_plane_distribution s) (hypocenter_distribution s)
              (upper_seismogenic_depth s) (lower_seismogenic_depth s)
              (magnitude_scaling_relationship s) (rupture_aspect_ratio s))
    as [(_ & Hok & Hview) | (Hn & _)]; [|contradiction].
  destruct (PointSource___init__ _ _ _ _ _ _ _ _ _ _ _ _) as [self out].
  cbn [fst snd] in *. exists self. subst out. split; [reflexivity|].
  rewrite Hview. now destruct s.
Qed.

(** C4.  [PointSource.__init__], run on a new object, raises
    [SourceError] exactly when the upper seismogenic depth is negative,
    or the lower one is not greater than the upper one, or a depth of
    the hypocenter distribution is outside of them, or the aspect ratio
    is not positive.  It raises nothing else.  When it raises, none of
    the seven attributes that [PointSource.__init__] assigns itself is
    assigned, so that there is no [PointSource] to read, but the four
    attributes that the initializer of the base class assigns, which
    runs before the checks, are; when it returns, all the attributes
    hold the arguments. *)
Theorem PointSource_init_raises_iff (sid nm trt : string) (m : MFD)
    (loc : Point) (npd : PMF.t NodalPlane) (hd : PMF.t R) (upper lower : R)
    (msr : MSR) (ar : R) :
  let run := PointSource___init__ ∅ sid nm trt m loc npd hd upper lower msr ar in
  ((exists msg, run.2 = Raise (SourceError msg)) <->
   (upper < 0 \/ ~ lower > upper \/
    (exists p d, In (p, d) (PMF.data hd) /\ ~ (upper <= d <= lower)) \/
    ~ ar > 0))
  /\ (forall e, run.2 = Raise e ->
        (exists msg, e = SourceError msg) /\
        Forall (fun attr => run.1 !! attr = None) point_source_attrs /\
        view run.1 = None /\
        run.1 !! "source_id"%string = Some (PyStr sid) /\
        run.1 !! "name"%string = Some (PyStr nm) /\
        run.1 !! "tectonic_region_type"%string = Some (PyStr trt) /\
        run.1 !! "mfd"%string = Some (PyMFD m))
  /\ (run.2 = Ok tt ->
        view run.1 =
        Some (mkPointSource sid nm trt m loc npd hd upper lower msr ar)).
Proof.
  intros run.
  pose proof (PointSource_init_outcome sid nm trt m loc npd hd upper lower msr ar)
    as Hout.
  cbv zeta in Hout. fold run in Hout.
  destruct Hout as [(Hv & Hok & Hview) | (Hn & [msg Hr] & Hself)].
  - split; [|split].
    + split.
      * intros [msg Hr]. rewrite Hok in Hr. discriminate.
      * destruct Hv as (H1 & H2 & H3 & H4).
        intros [H | [H | [(p & d & Hin & H) | H]]]; exfalso; try lra.
        apply H. eauto.
    + intros e He. rewrite Hok in He. discriminate.
    + intros _. exact Hview.
  - split; [|split].
    + split; [intros _ | eauto].
      destruct (Rlt_dec upper 0); [now left|]. right.
      destruct (Rgt_dec lower upper); [|now left]. right.
      destruct (Rgt_dec ar 0); [|now right]. left.
      destruct (all_depths_within upper lower (PMF.data hd)) eqn:Hall.
      * exfalso. apply Hn. rewrite all_depths_within_true in Hall.
        unfold valid_parameters. repeat split; try lra; apply (Hall _ _ H).
      * now apply all_depths_within_false.
    + intros e He. rewrite Hr in He. injection He as <-.
      split; [eauto|]. rewrite Hself.
      split; [apply SeismicSource_init_attrs|].
      split; [apply SeismicSource_init_attrs|].
      repeat split; reflexivity.
    + intros He. rewrite Hr in He. discriminate.
Qed.

(** ** Properties of the placement of the rupture surface *)

(** What [_get_rupture_surface] returns when its assertion holds, with
    the azimuths as the code computes them. *)
Lemma get_rupture_surface_ok (self : PointSource) (mag : R)
    (np : NodalPlane) (hypocenter : Point) :
  upper_seismogenic_depth self <= depth hypocenter <=
    lower_seismogenic_depth self ->
  let rdip := radians (dip np) in
  let azimuth_right := strike np in
  let azimuth_down := pymod (azimuth_right + 90) 360 in
  let azimuth_left := pymod (azimuth_down + 90) 360 in
  let azimuth_up := pymod (azimuth_left + 90) 360 in
  let rup_length := (_get_rupture_dimensions self mag np).1 in
  let rup_width := (_get_rupture_dimensions self mag np).2 in
  let rup_proj_height := rup_width * sin rdip in
  let rup_proj_width := rup_width * cos rdip in
  let center :=
    rupture_center_of hypocenter
      (vertical_shift self hypocenter (rup_proj_height / 2))
      rdip azimuth_up azimuth_down in
  let right_center := point_at center (rup_length / 2) 0 azimuth_right in
  let right_bottom :=
    point_at right_center (rup_proj_width / 2) (rup_proj_height / 2)
      azimuth_down in
  let right_top :=
    point_at right_bottom rup_proj_width (- rup_proj_height) azimuth_up in
  let left_top := point_at right_top rup_length 0 azimuth_left in
  let left_bottom := point_at right_bottom rup_length 0 azimuth_left in
  _get_rupture_surface self mag np hypocenter =
  Ok (mkPlanarSurface left_top right_top right_bottom left_bottom).
Proof.
  intros [Hu Hl]. cbv zeta. unfold _get_rupture_surface.
  replace (leb _ _ && geb _ _) with true.
  2:{ symmetry. apply andb_true_iff. unfold geb.
      split; now apply leb_true_iff. }
  cbn [negb]. destruct (_get_rupture_dimensions self mag np) as [l w].
  reflexivity.
Qed.

Lemma get_rupture_surface_assert (self : PointSource) (mag : R)
    (np : NodalPlane) (hypocenter : Point) :
  ~ (upper_seismogenic_depth self <= depth hypocenter <=
       lower_seismogenic_depth self) ->
  _get_rupture_surface self mag np hypocenter = Raise AssertionError.
Proof.
  intros Hn. unfold _get_rupture_surface.
  replace (leb _ _ && geb _ _) with false; [reflexivity|].
  symmetry. apply andb_false_iff. unfold geb. rewrite !leb_false_iff.
  destruct (Rle_dec (upper_seismogenic_depth self) (depth hypocenter));
    [right | left]; lra.
Qed.

(** ** Properties of the corners of the rupture surface *)







(** ** Properties of the enumeration of ruptures *)

(** *** The three loops *)

Lemma enter_np_spec (self : PointSource) (mags : list (R * R))
    (mag rate : R) (nps : list (R * NodalPlane)) :
  match enter_np self mags mag rate nps with
  | None => combos_np self (mag, rate) nps = []
  | Some fr =>
      frame_combo fr :: pending self fr =
      combos_np self (mag, rate) nps ++ combos_mag self mags
  end.
Proof.
  induction nps as [|[np_prob np] nps IH]; cbn [enter_np].
  - reflexivity.
  - unfold combos_np in *. cbn [flat_map].
    destruct (PMF.data (hypocenter_distribution self)) as [|[hc_prob hc_depth] hcs]
      eqn:Hhc.
    + exact IH.
    + unfold pending, frame_combo, combos_np. cbn. rewrite Hhc.
      now rewrite <- app_assoc.
Qed.

Lemma enter_mag_spec (self : PointSource) (mags : list (R * R)) :
  match enter_mag self mags with
  | None => combos_mag self mags = []
  | Some fr => frame_combo fr :: pending self fr = combos_mag self mags
  end.
Proof.
  induction mags as [|[mag rate] mags IH]; cbn [enter_mag].
  - reflexivity.
  - pose proof (enter_np_spec self mags mag rate
                  (PMF.data (nodal_plane_distribution self))) as Hnp.
    destruct (enter_np self mags mag rate _) as [fr|].
    + exact Hnp.
    + unfold combos_mag in *. cbn [flat_map].
      fold (combos_np self (mag, rate)
              (PMF.data (nodal_plane_distribution self))).
      rewrite Hnp. exact IH.
Qed.

Lemma advance_spec (self : PointSource) (fr : frame) :
  match advance self fr with
  | None => pending self fr = []
  | Some fr' => pending self fr = frame_combo fr' :: pending self fr'
  end.
Proof.
  unfold advance. destruct fr as [mags mag rate nps np_prob np hcs hc_prob hc_depth].
  cbn [f_hcs f_mags f_mag f_mag_occ_rate f_nps f_np_prob f_np].
  destruct hcs as [|[hp hd] hcs].
  - pose proof (enter_np_spec self mags mag rate nps) as Hnp.
    destruct (enter_np self mags mag rate nps) as [fr'|].
    + unfold pending at 1. cbn [f_hcs f_mags f_mag f_mag_occ_rate f_nps].
      unfold combos_hc at 1. cbn [map app]. now rewrite Hnp.
    + pose proof (enter_mag_spec self mags) as Hmag.
      destruct (enter_mag self mags) as [fr'|]; unfold pending at 1;
        cbn [f_hcs f_mags f_mag f_mag_occ_rate f_nps];
        unfold combos_hc at 1; cbn [map app]; rewrite Hnp; cbn [app];
        now rewrite Hmag.
  - reflexivity.
Qed.

Lemma loop_body_frame_combo (g : generator) (fr : frame) :
  loop_body g fr = body_of g (frame_combo fr).
Proof. reflexivity. Qed.

(** *** One call of [next] *)

Lemma body_of_same_call (g g' : generator) (c : combo) :
  same_call g g' -> body_of g' c = body_of g c.
Proof.
  intros (H1 & H2 & H3 & H4). destruct c as [[[mag rate] [npp np]] [hcp hcd]].
  unfold body_of, loop_body. now rewrite H1, H2, H3, H4.
Qed.

Lemma run_to_yield_spec (g : generator) (pos : option frame) (cs : list combo) :
  match pos with
  | None => cs = []
  | Some fr => frame_combo fr :: pending (g_self g) fr = cs
  end ->
  match cs with
  | [] => run_to_yield g pos = (StopIteration, set_pc g Finished)
  | c :: cs' =>
      match body_of g c with
      | Ok rupture =>
          exists g', run_to_yield g pos = (Yielded rupture, g') /\
                     same_call g g' /\ todo g' = cs' /\ g_pc g' <> NotStarted
      | Raise e => run_to_yield g pos = (Raised e, set_pc g Finished)
      end
  end.
Proof.
  destruct pos as [fr|]; intros H.
  - subst cs. unfold run_to_yield. rewrite loop_body_frame_combo.
    destruct (body_of g (frame_combo fr)) as [rupture|e]; [|reflexivity].
    eexists. split; [reflexivity|]. split; [now unfold same_call|].
    split; [reflexivity | discriminate].
  - now subst cs.
Qed.

Lemma next_spec (g : generator) :
  passes_assert g ->
  match todo g with
  | [] => exists g', next g = (StopIteration, g') /\ g_pc g' = Finished
  | c :: cs =>
      match body_of g c with
      | Ok rupture =>
          exists g', next g = (Yielded rupture, g') /\
                     same_call g g' /\ todo g' = cs /\ g_pc g' <> NotStarted
      | Raise e => next g = (Raised e, set_pc g Finished)
      end
  end.
Proof.
  intros Hpass. unfold next, todo, passes_assert in *.
  destruct (g_pc g) as [|fr|] eqn:Hpc.
  - replace (ltb 0 (g_rate_scaling_factor g)) with true
      by (symmetry; apply ltb_true_iff; auto).
    cbn [negb].
    pose proof (enter_mag_spec (g_self g)
                  (get_annual_occurrence_rates (mfd (g_self g)))) as Hent.
    pose proof (run_to_yield_spec g (enter_mag (g_self g)
                  (get_annual_occurrence_rates (mfd (g_self g))))
                  (combos_mag (g_self g)
                     (get_annual_occurrence_rates (mfd (g_self g))))) as Hrun.
    destruct (enter_mag _ _) as [fr|]; specialize (Hrun Hent);
      destruct (combos_mag _ _) as [|c cs]; try exact Hrun; try discriminate.
    eexists; split; [exact Hrun | reflexivity].
  - pose proof (advance_spec (g_self g) fr) as Hadv.
    pose proof (run_to_yield_spec g (advance (g_self g) fr)
                  (pending (g_self g) fr)) as Hrun.
    destruct (advance _ _) as [fr'|];
      [specialize (Hrun (eq_sym Hadv)) | specialize (Hrun Hadv)];
      destruct (pending _ _) as [|c cs]; try exact Hrun; try discriminate.
    eexists; split; [exact Hrun | reflexivity].
  - exists g. split; [reflexivity | exact Hpc].
Qed.

(** *** The whole enumeration *)

(** [consume] yields the ruptures of the iterations in their order, as
    far as the fuel goes, when the loop body raises in none of them. *)
Lemma consume_spec (fuel : nat) (g : generator) :
  passes_assert g ->
  Forall (fun c => is_ok (body_of g c)) (todo g) ->
  exists ruptures,
    consume fuel g =
      (ruptures,
       if (length (todo g) <? fuel)%nat then Exhausted else OutOfFuel)
    /\ Forall2 (fun c rupture => body_of g c = Ok rupture)
         (firstn fuel (todo g)) ruptures.
Proof.
  revert g. induction fuel as [|fuel IH]; intros g Hpass Hall.
  - exists []. split; [reflexivity | constructor].
  - pose proof (next_spec g Hpass) as Hnext. cbn [consume].
    destruct (todo g) as [|c cs] eqn:Htodo.
    + destruct Hnext as (g' & -> & _). exists [].
      split; [reflexivity | constructor].
    + inversion Hall as [|? ? Hc Hcs]; subst.
      destruct (body_of g c) as [rupture|e] eqn:Hbody; [|destruct Hc].
      destruct Hnext as (g' & -> & Hsame & Htodo' & Hpc').
      destruct (IH g') as (ruptures & Hcons & Hrel).
      * intros Hn. contradiction.
      * rewrite Htodo'. eapply Forall_impl; [exact Hcs|].
        intros c' Hc'. cbn beta. now rewrite (body_of_same_call g g').
      * rewrite Hcons. exists (rupture :: ruptures). rewrite Htodo'.
        split; [reflexivity|]. cbn [firstn]. constructor; [exact Hbody|].
        rewrite Htodo' in Hrel. eapply Forall2_impl; [exact Hrel|].
        intros c' r' Hr'. cbn beta in *.
        now rewrite <- (body_of_same_call g g').
Qed.

Lemma in_combos_mag (self : PointSource) (mags : list (R * R)) (c : combo) :
  In c (combos_mag self mags) ->
  In c.1.1 mags /\
  In c.1.2 (PMF.data (nodal_plane_distribution self)) /\
  In c.2 (PMF.data (hypocenter_distribution self)).
Proof.
  unfold combos_mag, combos_np, combos_hc. intros H.
  apply in_flat_map in H as (m & Hm & H).
  apply in_flat_map in H as (n & Hn & H).
  apply in_map_iff in H as (h & <- & Hh). auto.
Qed.

Lemma body_of_ok (g : generator) (mag rate np_prob : R) (np : NodalPlane)
    (hc_prob hc_depth : R) :
  upper_seismogenic_depth (g_self g) <= hc_depth <=
    lower_seismogenic_depth (g_self g) ->
  let hypocenter :=
    mkPoint (longitude (g_location g)) (latitude (g_location g)) hc_depth in
  exists surface,
    _get_rupture_surface (g_self g) mag np hypocenter = Ok surface /\
    body_of g ((mag, rate), (np_prob, np), (hc_prob, hc_depth)) =
    Ok (mkProbabilisticRupture mag np (tectonic_region_type (g_self g))
          hypocenter surface
          (rate * np_prob * hc_prob * g_rate_scaling_factor g)
          (g_temporal_occurrence_model g)).
Proof.
  intros Hd hypocenter.
  pose proof (get_rupture_surface_ok (g_self g) mag np hypocenter Hd) as Hs.
  cbv zeta in Hs. eexists. split; [exact Hs|].
  unfold body_of, loop_body. cbn [f_mag f_np f_hc_depth f_mag_occ_rate
    f_np_prob f_hc_prob]. fold hypocenter. rewrite Hs. reflexivity.
Qed.

(** On a constructed source the loop body raises in no iteration. *)
Lemma body_of_constructed (g : generator) (c : combo) :
  constructs (g_self g) ->
  In c.2 (PMF.data (hypocenter_distribution (g_self g))) ->
  is_ok (body_of g c).
Proof.
  intros Hc Hin. apply constructs_valid in Hc as (_ & _ & Hall & _).
  destruct c as [[[mag rate] [npp np]] [hcp hcd]]. cbn [snd] in Hin.
  destruct (body_of_ok g mag rate npp np hcp hcd (Hall _ _ Hin))
    as (surface & _ & ->).
  exact I.
Qed.

Lemma todo_constructed (self : PointSource) (tom : TOM) (loc : Point)
    (rsf : R) :
  constructs self ->
  let g := _iter_ruptures_at_location self tom loc rsf in
  Forall (fun c => is_ok (body_of g c)) (todo g).
Proof.
  intros Hc g. apply List.Forall_forall. intros c Hin.
  apply body_of_constructed; [exact Hc|].
  now apply in_combos_mag in Hin.
Qed.

(** *** The order of the enumeration *)







(** The enumeration of a constructed source, run to its end. *)
Lemma consume_constructed (self : PointSource) (tom : TOM) (loc : Point)
    (rsf : R) (fuel : nat) :
  constructs self -> 0 < rsf ->
  let g := _iter_ruptures_at_location self tom loc rsf in
  exists ruptures,
    consume fuel g =
      (ruptures,
       if (length (todo g) <? fuel)%nat then Exhausted else OutOfFuel)
    /\ Forall2 (fun c rupture => body_of g c = Ok rupture)
         (firstn fuel (todo g)) ruptures.
Proof.
  intros Hc Hrsf g. apply consume_spec.
  - intros _. exact Hrsf.
  - now apply todo_constructed.
Qed.





(** *** Generators are lazy *)




(** ** Properties of [azimuth] *)

Lemma sin_radians_pos (d : R) : 0 < d < 180 -> 0 < sin (radians d).
Proof.
  intros Hd. pose proof PI_RGT_0 as Hpi. unfold radians.
  apply sin_gt_0; nra.
Qed.

Lemma radians_0 : radians 0 = 0.
Proof. unfold radians. lra. Qed.

Lemma radians_minus (x y : R) : radians (x - y) = radians x - radians y.
Proof. unfold radians. lra. Qed.

Lemma degrees_PI2 : degrees (PI / 2) = 90.
Proof. unfold degrees. pose proof PI_RGT_0. field. lra. Qed.

Lemma degrees_PI : degrees PI = 180.
Proof. unfold degrees. pose proof PI_RGT_0. field. lra. Qed.

Lemma degrees_0 : degrees 0 = 0.
Proof. unfold degrees. lra. Qed.

Lemma atan2_north (x : R) : 0 < x -> Geodetic.atan2 0 x = 0.
Proof.
  intros Hx. unfold Geodetic.atan2. destruct (Rlt_dec 0 x); [|lra].
  replace (0 / x) with 0 by (field; lra). apply atan_0.
Qed.

Lemma atan2_south (x : R) : x < 0 -> Geodetic.atan2 0 x = PI.
Proof.
  intros Hx. unfold Geodetic.atan2. destruct (Rlt_dec 0 x); [lra|].
  destruct (Rlt_dec x 0); [|lra]. destruct (Rle_dec 0 0); [|lra].
  replace (0 / x) with 0 by (field; lra). rewrite atan_0. lra.
Qed.

Lemma atan2_east (y : R) : 0 < y -> Geodetic.atan2 y 0 = PI / 2.
Proof.
  intros Hy. unfold Geodetic.atan2. destruct (Rlt_dec 0 0); [lra|].
  destruct (Rlt_dec 0 y); [reflexivity | lra].
Qed.

Lemma atan2_west (y : R) : y < 0 -> Geodetic.atan2 y 0 = - (PI / 2).
Proof.
  intros Hy. unfold Geodetic.atan2. destruct (Rlt_dec 0 0); [lra|].
  destruct (Rlt_dec 0 y); [lra|]. destruct (Rlt_dec y 0); [reflexivity | lra].
Qed.

Lemma atan2_bound (y x : R) : - PI < Geodetic.atan2 y x <= PI.
Proof.
  pose proof PI_RGT_0 as Hpi. unfold Geodetic.atan2.
  destruct (Rlt_dec 0 x) as [Hx|Hx].
  - pose proof (atan_bound (y / x)). lra.
  - destruct (Rlt_dec x 0) as [Hx'|Hx'].
    + assert (Hinv : / x < 0) by now apply Rinv_lt_0_compat.
      destruct (Rle_dec 0 y) as [Hy|Hy].
      * assert (Hq : y / x <= 0) by (unfold Rdiv; nra).
        pose proof (atan_bound (y / x)) as Hb.
        assert (atan (y / x) <= 0).
        { destruct Hq as [Hq|Hq]; [|rewrite Hq, atan_0; lra].
          left. rewrite <- atan_0. now apply atan_increasing. }
        lra.
      * assert (Hq : 0 < y / x) by (unfold Rdiv; nra).
        pose proof (atan_bound (y / x)) as Hb.
        assert (0 < atan (y / x))
          by (rewrite <- atan_0; now apply atan_increasing).
        lra.
    + destruct (Rlt_dec 0 y); [lra|]. destruct (Rlt_dec y 0); lra.
Qed.

Lemma azimuth_range (lon1 lat1 lon2 lat2 : R) :
  0 <= Geodetic.azimuth lon1 lat1 lon2 lat2 < 360.
Proof.
  unfold Geodetic.azimuth. cbv zeta.
  set (a := Geodetic.atan2 _ _).
  pose proof (atan2_bound (sin (radians (lon2 - lon1)) * cos (radians lat2))
    (cos (radians lat1) * sin (radians lat2) -
     sin (radians lat1) * cos (radians lat2) * cos (radians (lon2 - lon1))))
    as Ha. fold a in Ha.
  pose proof PI_RGT_0 as Hpi.
  assert (Hd : -180 < degrees a <= 180).
  { unfold degrees. split.
    - apply (Rmult_lt_reg_r PI); [lra|].
      replace (a * 180 / PI * PI) with (a * 180) by (field; lra). lra.
    - apply (Rmult_le_reg_r PI); [lra|].
      replace (a * 180 / PI * PI) with (a * 180) by (field; lra). lra. }
  destruct (Rlt_dec (degrees a) 0); lra.
Qed.

(** The bearing of a point on the same meridian, and of a point on the
    equator seen from the equator. *)
Lemma azimuth_due_north (lon lat1 lat2 : R) :
  0 < lat2 - lat1 < 180 -> Geodetic.azimuth lon lat1 lon lat2 = 0.
Proof.
  intros Hl. unfold Geodetic.azimuth. cbv zeta.
  replace (lon - lon) with 0 by lra. rewrite radians_0, sin_0, cos_0.
  replace (cos (radians lat1) * sin (radians lat2) -
           sin (radians lat1) * cos (radians lat2) * 1)
    with (sin (radians (lat2 - lat1)))
    by (rewrite radians_minus, sin_minus; lra).
  rewrite Rmult_0_l, atan2_north by now apply sin_radians_pos.
  rewrite degrees_0. destruct (Rlt_dec 0 0); lra.
Qed.

Lemma azimuth_due_south (lon lat1 lat2 : R) :
  0 < lat1 - lat2 < 180 -> Geodetic.azimuth lon lat1 lon lat2 = 180.
Proof.
  intros Hl. unfold Geodetic.azimuth. cbv zeta.
  replace (lon - lon) with 0 by lra. rewrite radians_0, sin_0, cos_0.
  replace (cos (radians lat1) * sin (radians lat2) -
           sin (radians lat1) * cos (radians lat2) * 1)
    with (- sin (radians (lat1 - lat2)))
    by (rewrite radians_minus, sin_minus; lra).
  pose proof (sin_radians_pos _ Hl).
  rewrite Rmult_0_l, atan2_south by lra.
  rewrite degrees_PI. destruct (Rlt_dec 180 0); lra.
Qed.

Lemma azimuth_east_on_equator (lon1 lon2 : R) :
  0 < lon2 - lon1 < 180 -> Geodetic.azimuth lon1 0 lon2 0 = 90.
Proof.
  intros Hl. unfold Geodetic.azimuth. cbv zeta.
  rewrite radians_0, sin_0, cos_0.
  replace (1 * 0 - 0 * 1 * cos (radians (lon2 - lon1))) with 0 by lra.
  pose proof (sin_radians_pos _ Hl).
  rewrite atan2_east by lra.
  rewrite degrees_PI2. destruct (Rlt_dec 90 0); lra.
Qed.

Lemma azimuth_west_on_equator (lon1 lon2 : R) :
  0 < lon1 - lon2 < 180 -> Geodetic.azimuth lon1 0 lon2 0 = 270.
Proof.
  intros Hl. unfold Geodetic.azimuth. cbv zeta.
  rewrite radians_0, sin_0, cos_0.
  replace (1 * 0 - 0 * 1 * cos (radians (lon2 - lon1))) with 0 by lra.
  pose proof (sin_radians_pos _ Hl) as Hs.
  replace (radians (lon2 - lon1)) with (- radians (lon1 - lon2))
    by (unfold radians; lra).
  rewrite sin_neg, atan2_west by lra.
  replace (degrees (- (PI / 2))) with (- 90)
    by (unfold degrees; pose proof PI_RGT_0; field; lra).
  destruct (Rlt_dec (- 90) 0); lra.
Qed.

Lemma radians_degrees (a : R) : radians (degrees a) = a.
Proof. unfold radians, degrees. pose proof PI_RGT_0. field. lra. Qed.

Lemma sqrt_scale (x y : R) :
  0 < x -> sqrt (x * x + y * y) = x * sqrt (1 + (y / x)²).
Proof.
  intros Hx. rewrite <- (sqrt_square x) at 3 by lra.
  rewrite <- sqrt_mult.
  - f_equal. unfold Rsqr. field. lra.
  - nra.
  - pose proof (Rle_0_sqr (y / x)). lra.
Qed.

Lemma sqrt_1_sqr_pos (t : R) : 0 < sqrt (1 + t²).
Proof. apply sqrt_lt_R0. pose proof (Rle_0_sqr t). lra. Qed.

(** [atan2 y x] is the angle of the vector [(x, y)]. *)
Lemma atan2_polar (y x : R) :
  let r := sqrt (x * x + y * y) in
  y = r * sin (Geodetic.atan2 y x) /\ x = r * cos (Geodetic.atan2 y x).
Proof.
  cbv zeta. unfold Geodetic.atan2.
  destruct (Rlt_dec 0 x) as [Hx|Hx].
  - rewrite sqrt_scale, sin_atan, cos_atan by exact Hx.
    pose proof (sqrt_1_sqr_pos (y / x)). split; field; lra.
  - destruct (Rlt_dec x 0) as [Hx'|Hx'].
    + replace (x * x + y * y) with (- x * - x + - y * - y) by lra.
      rewrite sqrt_scale by lra.
      replace (- y / - x) with (y / x) by (field; lra).
      pose proof (sqrt_1_sqr_pos (y / x)).
      destruct (Rle_dec 0 y).
      * rewrite neg_sin, neg_cos, sin_atan, cos_atan. split; field; lra.
      * unfold Rminus. rewrite sin_plus, cos_plus, sin_neg, cos_neg, sin_PI, cos_PI,
          sin_atan, cos_atan. split; field; lra.
    + assert (x = 0) as -> by lra.
      replace (0 * 0 + y * y) with (y * y) by lra.
      destruct (Rlt_dec 0 y) as [Hy|Hy].
      * rewrite sqrt_square, sin_PI2, cos_PI2 by lra. lra.
      * destruct (Rlt_dec y 0) as [Hy'|Hy'].
        -- replace (y * y) with (- y * - y) by lra.
           rewrite sqrt_square, sin_neg, cos_neg, sin_PI2, cos_PI2 by lra. lra.
        -- assert (y = 0) as -> by lra.
           rewrite Rmult_0_l, sqrt_0. lra.
Qed.

Lemma eastward_eq (lon1 lat1 lon2 lat2 : R) :
  Geodetic.eastward lon1 lat1 lon2 lat2 =
  sin (radians (lon2 - lon1)) * cos (radians lat2).
Proof.
  unfold Geodetic.eastward, Geodetic.on_sphere, Geodetic.east_at, Geodetic.dot.
  rewrite radians_minus, sin_minus. lra.
Qed.

Lemma northward_eq (lon1 lat1 lon2 lat2 : R) :
  Geodetic.northward lon1 lat1 lon2 lat2 =
  cos (radians lat1) * sin (radians lat2) -
  sin (radians lat1) * cos (radians lat2) * cos (radians (lon2 - lon1)).
Proof.
  unfold Geodetic.northward, Geodetic.on_sphere, Geodetic.north_at, Geodetic.dot.
  rewrite radians_minus, cos_minus. lra.
Qed.

(** The azimuth is the angle, clockwise from north, of the direction
    from point 1 to point 2. *)
Lemma azimuth_direction (lon1 lat1 lon2 lat2 : R) :
  let a := radians (Geodetic.azimuth lon1 lat1 lon2 lat2) in
  let e := Geodetic.eastward lon1 lat1 lon2 lat2 in
  let n := Geodetic.northward lon1 lat1 lon2 lat2 in
  e = sqrt (n * n + e * e) * sin a /\ n = sqrt (n * n + e * e) * cos a.
Proof.
  cbv zeta. rewrite eastward_eq, northward_eq.
  unfold Geodetic.azimuth. cbv zeta.
  set (e := sin _ * cos _). set (n := _ - _).
  pose proof (atan2_polar e n) as Hp. cbv zeta in Hp.
  destruct (Rlt_dec (degrees (Geodetic.atan2 e n)) 0).
  - replace (radians (degrees (Geodetic.atan2 e n) + 360))
      with (Geodetic.atan2 e n + 2 * PI)
      by (rewrite <- (radians_degrees (Geodetic.atan2 e n)) at 1;
          unfold radians; lra).
    rewrite sin_plus, cos_plus, sin_2PI, cos_2PI.
    rewrite !Rmult_0_r, !Rmult_1_r, Rplus_0_r, Rminus_0_r. exact Hp.
  - rewrite radians_degrees. exact Hp.
Qed.

Lemma azimuth_identical (lon lat : R) : Geodetic.azimuth lon lat lon lat = 0.
Proof.
  unfold Geodetic.azimuth. cbv zeta.
  replace (lon - lon) with 0 by lra.
  replace (radians 0) with 0 by (unfold radians; lra).
  rewrite sin_0, cos_0.
  replace (cos (radians lat) * sin (radians lat) -
           sin (radians lat) * cos (radians lat) * 1) with 0 by lra.
  rewrite Rmult_0_l. unfold Geodetic.atan2.
  destruct (Rlt_dec 0 0); [lra|].
  replace (degrees 0) with 0 by (unfold degrees; lra).
  destruct (Rlt_dec 0 0); lra.
Qed.

(** C7.  [azimuth] is in [0, 360) for all points and is the angle,
    clockwise from north, of the direction from point 1 to point 2: the
    parts of that direction to the east and to the north at point 1 are
    its length times the sine and the cosine of the azimuth.  So it is 0
    to every point due north on the same meridian, 180 to every point
    due south, and along the equator 90 to the east and 270 to the west;
    it is 0 from (0, 0) to (0, 1), 90 from (0, 0) to (1, 0), 180 from
    (0, 2) to (0, 1) and 270 from (1, 0) to (0, 0).  For identical
    points, where there is no direction, it is a value all the same
    (0): nothing is raised. *)
Theorem azimuth_cardinal_directions :
  Geodetic.azimuth 0 0 0 1 = 0
  /\ Geodetic.azimuth 0 0 1 0 = 90
  /\ Geodetic.azimuth 0 2 0 1 = 180
  /\ Geodetic.azimuth 1 0 0 0 = 270
  /\ (forall lon1 lat1 lon2 lat2,
        0 <= Geodetic.azimuth lon1 lat1 lon2 lat2 < 360)
  /\ (forall lon lat, 0 <= Geodetic.azimuth lon lat lon lat < 360)
  /\ (forall lon lat, Geodetic.azimuth lon lat lon lat = 0)
  /\ (forall lon lat1 lat2,
        0 < lat2 - lat1 < 180 -> Geodetic.azimuth lon lat1 lon lat2 = 0)
  /\ (forall lon lat1 lat2,
        0 < lat1 - lat2 < 180 -> Geodetic.azimuth lon lat1 lon lat2 = 180)
  /\ (forall lon1 lon2,
        0 < lon2 - lon1 < 180 -> Geodetic.azimuth lon1 0 lon2 0 = 90)
  /\ (forall lon1 lon2,
        0 < lon1 - lon2 < 180 -> Geodetic.azimuth lon1 0 lon2 0 = 270)
  /\ (forall lon1 lat1 lon2 lat2,
        let a := radians (Geodetic.azimuth lon1 lat1 lon2 lat2) in
        let e := Geodetic.eastward lon1 lat1 lon2 lat2 in
        let n := Geodetic.northward lon1 lat1 lon2 lat2 in
        e = sqrt (n * n + e * e) * sin a /\
        n = sqrt (n * n + e * e) * cos a).
Proof.
  split; [apply azimuth_due_north; lra|].
  split; [apply azimuth_east_on_equator; lra|].
  split; [apply azimuth_due_south; lra|].
  split; [apply azimuth_west_on_equator; lra|].
  split; [apply azimuth_range|].
  split; [intros lon lat; apply azimuth_range|].
  split; [apply azimuth_identical|].
  split; [apply azimuth_due_north|].
  split; [apply azimuth_due_south|].
  split; [apply azimuth_east_on_equator|].
  split; [apply azimuth_west_on_equator|].
  apply azimuth_direction.
Qed.

(** ** Further properties of [PMF] *)

Lemma map_float_id {V : Type} (data : list (R * V)) :
  map (fun pv : R * V => (float pv.1, pv.2)) data = data.
Proof.
  induction data as [|[p v] data IH]; cbn; [reflexivity|].
  now rewrite IH.
Qed.

(** The sum is checked only when no probability is negative. *)
Lemma PMF_init_sum_error_inv {V : Type} (data : list (R * V)) (epsilon : R) :
  PMF.__init__ data epsilon =
    Raise (ValueError "probabilities %s do not sum up to 1.0") ->
  forall p v, In (p, v) data -> 0 <= p.
Proof.
  intros Hr p v Hin. destruct (Rle_dec 0 p) as [Hp|Hp]; [exact Hp|].
  exfalso.
  assert (Hex : exists q w, In (q, w) data /\ q < 0)
    by (exists p, v; split; [exact Hin | lra]).
  unfold PMF.__init__, PMF.zip_star in Hr.
  destruct data as [|d data]; [destruct Hin|]. cbn [rbind] in Hr.
  pose proof (existsb_neg_iff (d :: data)) as Hiff.
  destruct (split (d :: data)) as [probs values]. cbn [fst] in Hiff.
  apply Hiff in Hex. rewrite Hex in Hr. discriminate.
Qed.

(** The three ways [PMF.__init__] ends on a non-empty sequence, each
    with the condition that leads to it. *)
Lemma PMF_init_trichotomy {V : Type} (data : list (R * V)) (epsilon : R) :
  data <> [] ->
  let negative := exists p v, In (p, v) data /\ p < 0 in
  let off := Rabs (Rsum (map fst data) - 1) > epsilon in
  (negative /\
   PMF.__init__ data epsilon =
     Raise (ValueError "a probability in %s is not positive"))
  \/ (~ negative /\ off /\
      PMF.__init__ data epsilon =
        Raise (ValueError "probabilities %s do not sum up to 1.0"))
  \/ (~ negative /\ ~ off /\
      PMF.__init__ data epsilon = Ok (PMF.Build data)).
Proof.
  intros Hne negative off.
  destruct (PMF_init_cases data epsilon Hne)
    as [[Hr Hn] | [[Hr Hs] | (Hr & Hn & Hs)]].
  - left. split; assumption.
  - right. left. split; [|split; assumption].
    intros (p & v & Hin & Hp).
    pose proof (PMF_init_sum_error_inv data epsilon Hr p v Hin). lra.
  - right. right. split; [exact Hn|]. split; [exact Hs|].
    now rewrite map_float_id in Hr.
Qed.

(** X2.  A sequence that [PMF.__init__] accepts with a tolerance is
    accepted, with the same result, with any larger tolerance; what it
    raises with a tolerance it raises with any smaller one. *)
Theorem PMF_init_tolerance_monotone {V : Type} (data : list (R * V))
    (epsilon epsilon' : R) :
  epsilon <= epsilon' ->
  (forall pmf, PMF.__init__ data epsilon = Ok pmf ->
               PMF.__init__ data epsilon' = Ok pmf)
  /\ (forall e, PMF.__init__ data epsilon' = Raise e ->
                PMF.__init__ data epsilon = Raise e).
Proof.
  intros Hle.
  destruct data as [|d data]; [split; [intros pmf H | intros e H]; exact H|].
  assert (Hne : d :: data <> []) by discriminate.
  destruct (PMF_init_trichotomy (d :: data) epsilon Hne)
    as [[Hn Hr] | [(Hn & Hs & Hr) | (Hn & Hs & Hr)]];
  destruct (PMF_init_trichotomy (d :: data) epsilon' Hne)
    as [[Hn' Hr'] | [(Hn' & Hs' & Hr') | (Hn' & Hs' & Hr')]];
  try contradiction; rewrite Hr, Hr'; split; intros x Hx;
    try exact Hx; try discriminate; exfalso; lra.
Qed.

(** ** Further properties of the construction of a [PointSource] *)



(** ** Further properties of the enumeration of ruptures *)

(** What the loop body yields, when it yields. *)
Lemma body_of_inv (g : generator) (c : combo)
    (rupture : ProbabilisticRupture TOM) :
  body_of g c = Ok rupture ->
  let hypocenter :=
    mkPoint (longitude (g_location g)) (latitude (g_location g)) c.2.2 in
  r_mag rupture = c.1.1.1
  /\ r_nodal_plane rupture = c.1.2.2
  /\ r_tectonic_region_type rupture = tectonic_region_type (g_self g)
  /\ r_hypocenter rupture = hypocenter
  /\ _get_rupture_surface (g_self g) c.1.1.1 c.1.2.2 hypocenter =
       Ok (r_surface rupture)
  /\ r_occurrence_rate rupture = combo_rate (g_rate_scaling_factor g) c
  /\ r_temporal_occurrence_model rupture = g_temporal_occurrence_model g.
Proof.
  destruct c as [[[mag rate] [npp np]] [hcp hcd]].
  unfold body_of, loop_body, combo_rate.
  cbn [f_mag f_np f_hc_depth f_mag_occ_rate f_np_prob f_hc_prob fst snd].
  destruct (_get_rupture_surface _ _ _ _) as [surface|e]; cbn [rbind];
    [|discriminate].
  intros H. injection H as <-. cbn. repeat split; reflexivity.
Qed.

Lemma Forall2_same_source {A B C : Type} (P : A -> B -> Prop)
    (Q : A -> C -> Prop) (l : list A) (k : list B) (k' : list C) :
  Forall2 P l k -> Forall2 Q l k' ->
  Forall2 (fun y z => exists x, In x l /\ P x y /\ Q x z) k k'.
Proof.
  intros HP. revert k'. induction HP as [|x y l k Hxy _ IH]; intros k' HQ.
  - inversion HQ. constructor.
  - inversion HQ as [|? z ? k'' Hxz HQ']; subst. constructor.
    + exists x. split; [now left | split; assumption].
    + eapply Forall2_impl; [apply IH; exact HQ'|].
      intros y' z' (x' & Hin & H1 & H2). exists x'.
      split; [now right | split; assumption].
Qed.

(** X12.  On a constructed source the ruptures that the enumeration
    yields with a positive rate scaling factor are, one by one and in
    the same order, the ruptures it yields with the factor 1, the
    occurrence rate of each multiplied by the factor and nothing else
    changed. *)
Theorem rate_scaling_factor_scales_rates (self : PointSource) (tom : TOM)
    (loc : Point) (rsf : R) (fuel : nat) :
  constructs self -> 0 < rsf ->
  Forall2
    (fun unscaled scaled =>
       r_mag scaled = r_mag unscaled
       /\ r_nodal_plane scaled = r_nodal_plane unscaled
       /\ r_tectonic_region_type scaled = r_tectonic_region_type unscaled
       /\ r_hypocenter scaled = r_hypocenter unscaled
       /\ r_surface scaled = r_surface unscaled
       /\ r_temporal_occurrence_model scaled =
            r_temporal_occurrence_model unscaled
       /\ r_occurrence_rate scaled = r_occurrence_rate unscaled * rsf)
    (consume fuel (_iter_ruptures_at_location self tom loc 1)).1
    (consume fuel (_iter_ruptures_at_location self tom loc rsf)).1.
Proof.
  intros Hc Hrsf.
  destruct (consume_constructed self tom loc 1 fuel Hc Rlt_0_1)
    as (rs1 & -> & Hrel1).
  destruct (consume_constructed self tom loc rsf fuel Hc Hrsf)
    as (rs & -> & Hrel).
  cbn [fst].
  eapply Forall2_impl; [exact (Forall2_same_source _ _ _ _ _ Hrel1 Hrel)|].
  intros r1 r (c & _ & H1 & H2). cbn beta in H1, H2.
  apply body_of_inv in H1 as (A1 & A2 & A3 & A4 & A5 & A6 & A7).
  apply body_of_inv in H2 as (B1 & B2 & B3 & B4 & B5 & B6 & B7).
  cbn [g_self g_location g_rate_scaling_factor g_temporal_occurrence_model
       _iter_ruptures_at_location] in *.
  rewrite A1, A2, A3, A4, A6, A7, B1, B2, B3, B4, B6, B7.
  repeat split; try reflexivity.
  - rewrite A5 in B5. now injection B5.
  - unfold combo_rate. lra.
Qed.

Lemma loop_body_same_place (g g' : generator) (fr : frame) :
  same_place g g' -> loop_body g' fr = loop_body g fr.
Proof.
  intros (H1 & H2 & H3 & _ & H5 & H6). unfold loop_body.
  now rewrite H1, H2, H3, H5, H6.
Qed.

Lemma next_same_place (g g' : generator) :
  same_place g g' ->
  (next g').1 = (next g).1 /\ same_place (next g).2 (next g').2.
Proof.
  intros Hs. pose proof Hs as (H1 & H2 & H3 & H4 & H5 & H6).
  assert (Hset : forall pc, same_place (set_pc g pc) (set_pc g' pc)).
  { intros pc. unfold same_place, set_pc. cbn.
    repeat split; try assumption; reflexivity. }
  assert (Hrun : forall pos,
            (run_to_yield g' pos).1 = (run_to_yield g pos).1 /\
            same_place (run_to_yield g pos).2 (run_to_yield g' pos).2).
  { intros [fr|]; unfold run_to_yield; [|split; [reflexivity | apply Hset]].
    rewrite (loop_body_same_place g g' fr Hs).
    destruct (loop_body g fr); split; try reflexivity; apply Hset. }
  unfold next. rewrite H4, H3, H1. destruct (g_pc g) as [|fr|].
  - destruct (negb _); [split; [reflexivity | apply Hset] | apply Hrun].
  - apply Hrun.
  - split; [reflexivity | exact Hs].
Qed.

Lemma consume_same_place (fuel : nat) (g g' : generator) :
  same_place g g' -> consume fuel g' = consume fuel g.
Proof.
  revert g g'. induction fuel as [|fuel IH]; intros g g' Hs; [reflexivity|].
  cbn [consume]. destruct (next_same_place g g' Hs) as [Hout Hnext].
  destruct (next g) as [out g1], (next g') as [out' g1']. cbn [fst snd] in *.
  subst out'. destruct out as [rupture| |e]; try reflexivity.
  now rewrite (IH g1 g1' Hnext).
Qed.

(** X13.  The depth of the location is ignored: for two locations of
    the same longitude and latitude the enumeration does the same,
    ruptures and exceptions alike, on any source; so [iter_ruptures]
    does not depend on the depth of the location of the source. *)
Theorem location_depth_is_ignored (self : PointSource) (tom : TOM)
    (loc loc' : Point) (rsf : R) (fuel : nat) :
  longitude loc' = longitude loc -> latitude loc' = latitude loc ->
  consume fuel (_iter_ruptures_at_location self tom loc' rsf) =
    consume fuel (_iter_ruptures_at_location self tom loc rsf)
  /\ (forall d,
        consume fuel (iter_ruptures self tom) =
        consume fuel
          (_iter_ruptures_at_location self tom
             (mkPoint (longitude (location self)) (latitude (location self)) d)
             1)).
Proof.
  intros Hlon Hlat. split.
  - apply consume_same_place. unfold same_place. cbn.
    repeat split; assumption.
  - intros d. unfold iter_ruptures. apply consume_same_place.
    unfold same_place. cbn. repeat split.
Qed.

(** [PMF.__init__] accepts a non-empty sequence of probabilities that are
    not negative and sum to 1 within the tolerance. *)
Lemma PMF_init_accepts {V : Type} (data : list (R * V)) (epsilon : R) :
  data <> [] ->
  (forall p v, In (p, v) data -> 0 <= p) ->
  Rabs (Rsum (map fst data) - 1) <= epsilon ->
  PMF.__init__ data epsilon = Ok (PMF.Build data).
Proof.
  intros Hne Hpos Hsum.
  destruct (PMF_init_trichotomy data epsilon Hne)
    as [[Hn _] | [(_ & Hs & _) | (_ & _ & Hr)]].
  - exfalso. destruct Hn as (p & v & Hin & Hp).
    specialize (Hpos p v Hin). lra.
  - exfalso. lra.
  - exact Hr.
Qed.

End PointSourceMethods.

(** ** The theorems on the example source *)

Lemma example_source_constructs : constructs example_source.
Proof.
  apply valid_constructs. unfold valid_parameters. cbn.
  split; [lra|]. split; [lra|]. split; [|lra].
  intros p d [H | [H | []]]; injection H as <- <-; lra.
Qed.

Lemma example_nodal_plane_valid : valid_nodal_plane example_nodal_plane.
Proof. unfold valid_nodal_plane. cbn. lra. Qed.





(** ** The model on concrete inputs *)

(** A negative upper seismogenic depth, and a hypocenter below the
    layer. *)
Example PointSource_negative_upper_depth :
  (PointSource___init__ ∅ "1" "point" "Active Shallow Crust"
     (mkMFD [(5, 1 / 10)]) (mkPoint 10 45 0)
     (PMF.Build [(1, example_nodal_plane)]) (PMF.Build [(1, 5)])
     (-1) 20 (mkMSR (fun mag rake => 100)) 1).2 =
  Raise (SourceError "upper seismogenic depth must be non-negative").
Proof.
  unfold PointSource___init__.
  replace (ltb (-1) 0) with true by (symmetry; apply ltb_true_iff; lra).
  reflexivity.
Qed.

Example PointSource_hypocenter_outside :
  (PointSource___init__ ∅ "1" "point" "Active Shallow Crust"
     (mkMFD [(5, 1 / 10)]) (mkPoint 10 45 0)
     (PMF.Build [(1, example_nodal_plane)])
     (PMF.Build [(1 / 2, 5); (1 / 2, 25)])
     0 20 (mkMSR (fun mag rake => 100)) 1).2 =
  Raise (SourceError
    "depths of all hypocenters must be in between lower and upper seismogenic depths").
Proof.
  unfold PointSource___init__.
  replace (ltb 0 0) with false by (symmetry; apply ltb_false_iff; lra).
  replace (gtb 20 0) with true by (symmetry; apply gtb_true_iff; lra).
  replace (all_depths_within 0 20 (PMF.data (PMF.Build [(1 / 2, 5); (1 / 2, 25)])))
    with false; [reflexivity|].
  symmetry. apply all_depths_within_false. exists (1 / 2), 25.
  split; [right; now left | lra].
Qed.

(** ** The further properties on the example source *)

Lemma epsilon_default_pos : 0 < PMF.epsilon_default.
Proof. unfold PMF.epsilon_default. simpl. lra. Qed.

Lemma example_hypocenter_pmf :
  PMF.__init__ [(1 / 4, 5); (3 / 4, 10)] PMF.epsilon_default =
  Ok (hypocenter_distribution example_source).
Proof.
  apply PMF_init_accepts; [discriminate | |].
  - intros p v [H | [H | []]]; injection H as <- _; lra.
  - cbn [map fst Rsum].
    replace (1 / 4 + (3 / 4 + 0) - 1) with 0 by lra.
    rewrite Rabs_R0. left. exact epsilon_default_pos.
Qed.

Lemma PMF_init_tolerance_monotone_witness :
  PMF.epsilon_default <= 1 /\
  PMF.__init__ [(1 / 4, 5); (3 / 4, 10)] 1 =
    Ok (hypocenter_distribution example_source).
Proof.
  assert (Hle : PMF.epsilon_default <= 1)
    by (unfold PMF.epsilon_default; simpl; lra).
  split; [exact Hle|].
  exact (proj1 (PMF_init_tolerance_monotone [(1 / 4, 5); (3 / 4, 10)]
                  PMF.epsilon_default 1 Hle) _ example_hypocenter_pmf).
Defined.

Lemma rate_scaling_factor_scales_rates_witness :
  constructs example_source /\ 0 < 1 / 4 /\
  length (consume unit flat_point_at 9
            (_iter_ruptures_at_location unit example_source tt
               (mkPoint 10 45 0) (1 / 4))).1
  = length (consume unit flat_point_at 9
              (_iter_ruptures_at_location unit example_source tt
                 (mkPoint 10 45 0) 1)).1.
Proof.
  assert (H : 0 < 1 / 4) by lra.
  split; [exact example_source_constructs|]. split; [exact H|].
  symmetry. eapply Forall2_length.
  exact (rate_scaling_factor_scales_rates unit flat_point_at example_source
           tt (mkPoint 10 45 0) (1 / 4) 9 example_source_constructs H).
Defined.

Lemma location_depth_is_ignored_witness :
  longitude (mkPoint 10 45 7) = longitude (mkPoint 10 45 0) /\
  latitude (mkPoint 10 45 7) = latitude (mkPoint 10 45 0) /\
  consume unit flat_point_at 9
    (_iter_ruptures_at_location unit example_source tt (mkPoint 10 45 7) 1)
  = consume unit flat_point_at 9
      (_iter_ruptures_at_location unit example_source tt (mkPoint 10 45 0) 1).
Proof.
  split; [reflexivity|]. split; [reflexivity|].
  exact (proj1 (location_depth_is_ignored unit flat_point_at example_source
                  tt (mkPoint 10 45 0) (mkPoint 10 45 7) 1 9
                  eq_refl eq_refl)).
Defined.

(** With a negative upper seismogenic depth [PointSource.__init__]
    raises, and the object it was run on has its [source_id], [name],
    [tectonic_region_type] and [mfd] assigned: the construction has
    assigned fields of the source before it fails. *)
Lemma PointSource_init_assigns_before_raising :
  let run :=
    PointSource___init__ ∅ "1" "point" "Active Shallow Crust"
      (mkMFD [(5, 1 / 10)]) (mkPoint 10 45 0)
      (PMF.Build [(1, example_nodal_plane)]) (PMF.Build [(1, 5)])
      (-1) 20 (mkMSR (fun mag rake => 100)) 1 in
  run.2 = Raise (SourceError "upper seismogenic depth must be non-negative")
  /\ run.1 !! "source_id"%string = Some (PyStr "1")
  /\ run.1 !! "name"%string = Some (PyStr "point")
  /\ run.1 !! "tectonic_region_type"%string =
       Some (PyStr "Active Shallow Crust")
  /\ run.1 !! "mfd"%string = Some (PyMFD (mkMFD [(5, 1 / 10)]))
  /\ ~ (forall attr, In attr (seismic_source_attrs ++ point_source_attrs) ->
          run.1 !! attr = None).
Proof.
  cbv zeta. unfold PointSource___init__.
  replace (ltb (-1) 0) with true by (symmetry; apply ltb_true_iff; lra).
  cbn [fst snd]. repeat split; try reflexivity.
  intros H. specialize (H "source_id"%string (or_introl eq_refl)).
  discriminate H.
Qed.

(** ** Properties of the code in binary64 arithmetic *)

Section Binary64Properties.

Import PrimFloat SpecFloat FloatOps FloatAxioms.
Import Binary64.
#[local] Set Warnings "-inexact-float".
Local Open Scope float_scope.

(** *** [PMF] *)

Lemma split_map_fst {V : Type} (data : list (float * V)) :
  (split data).1 = map fst data.
Proof.
  induction data as [|[p v] data IH]; cbn; [reflexivity|].
  destruct (split data) as [ps vs]. cbn in *. now rewrite IH.
Qed.

Lemma combine_to_float_split {V : Type} (data : list (float * V)) :
  combine (map to_float (split data).1) (split data).2 =
  map (fun pv => (to_float pv.1, pv.2)) data.
Proof.
  induction data as [|[p v] data IH]; cbn; [reflexivity|].
  destruct (split data) as [ps vs]. cbn in *. now rewrite IH.
Qed.

Lemma map_to_float_id {V : Type} (data : list (float * V)) :
  map (fun pv : float * V => (to_float pv.1, pv.2)) data = data.
Proof.
  induction data as [|[p v] data IH]; cbn; [reflexivity|].
  now rewrite IH.
Qed.

Lemma existsb_negative_iff {V : Type} (data : list (float * V)) :
  existsb (fun prob => prob <? 0) (map fst data) = true <->
  exists p v, In (p, v) data /\ (p <? 0) = true.
Proof.
  induction data as [|[p v] data IH]; cbn.
  - split; [discriminate | intros (? & ? & [] & _)].
  - rewrite orb_true_iff, IH. split.
    + intros [H | (q & w & Hin & Hq)].
      * exists p, v. auto.
      * exists q, w. auto.
    + intros (q & w & [Heq | Hin] & Hq).
      * inversion Heq; subst. now left.
      * right. eauto.
Qed.

(** The three ways [PMF.__init__] ends on a non-empty sequence, each
    with the outcome of the two tests that leads to it. *)
Lemma PMF_init_float_cases {V : Type} (data : list (float * V))
    (epsilon : float) :
  data <> [] ->
  let negative := existsb (fun prob => prob <? 0) (map fst data) in
  let off := gtb (abs (builtin_sum (map fst data) - 1)) epsilon in
  (negative = true /\
   PMF.__init__ data epsilon =
     Raise (ValueError "a probability in %s is not positive"))
  \/ (negative = false /\ off = true /\
      PMF.__init__ data epsilon =
        Raise (ValueError "probabilities %s do not sum up to 1.0"))
  \/ (negative = false /\ off = false /\
      PMF.__init__ data epsilon = Ok (PMF.Build data)).
Proof.
  intros Hne negative off. subst negative off.
  unfold PMF.__init__, PMF.zip_star.
  destruct data as [|d data]; [congruence|]. cbn [rbind].
  pose proof (split_map_fst (d :: data)) as Hfst.
  pose proof (combine_to_float_split (d :: data)) as Hcomb.
  destruct (split (d :: data)) as [probs values]. cbn [fst snd] in *.
  subst probs. unfold to_float at 1.
  destruct (existsb _ _); [left; split; reflexivity|]. right.
  destruct (gtb _ _); [left; repeat split|].
  right. split; [reflexivity|]. split; [reflexivity|].
  now rewrite Hcomb, map_to_float_id.
Qed.



(** *** Values that are not numbers *)

Lemma is_nan_spec (x : float) : is_nan x = true <-> Prim2SF x = S754_nan.
Proof.
  unfold is_nan. rewrite FloatAxioms.eqb_spec.
  destruct (Prim2SF x) as [s|s| |s m e]; unfold SFeqb, SFcompare.
  - split; discriminate.
  - destruct s; split; discriminate.
  - split; reflexivity.
  - rewrite Z.compare_refl, Pos.compare_cont_refl.
    destruct s; split; discriminate.
Qed.

Lemma add_nan_l (x y : float) : is_nan x = true -> is_nan (x + y) = true.
Proof.
  rewrite !is_nan_spec, add_spec. intros ->. reflexivity.
Qed.

Lemma add_nan_r (x y : float) : is_nan y = true -> is_nan (x + y) = true.
Proof.
  rewrite !is_nan_spec, add_spec. intros ->.
  destruct (Prim2SF x) as [s|s| |s m e]; reflexivity.
Qed.

Lemma fold_left_add_nan (xs : list float) (acc : float) :
  is_nan acc = true -> is_nan (fold_left add xs acc) = true.
Proof.
  revert acc. induction xs as [|x xs IH]; intros acc Hacc; cbn; [exact Hacc|].
  apply IH. now apply add_nan_l.
Qed.

Lemma builtin_sum_nan (xs : list float) (p : float) :
  In p xs -> is_nan p = true -> is_nan (builtin_sum xs) = true.
Proof.
  unfold builtin_sum. generalize 0. induction xs as [|x xs IH];
    intros acc Hin Hp; [destruct Hin|].
  cbn. destruct Hin as [-> | Hin].
  - apply fold_left_add_nan. now apply add_nan_r.
  - now apply IH.
Qed.

Lemma gtb_nan (x epsilon : float) : is_nan x = true -> gtb x epsilon = false.
Proof.
  rewrite is_nan_spec. unfold gtb. rewrite ltb_spec. intros ->.
  unfold SFltb, SFcompare. destruct (Prim2SF epsilon); reflexivity.
Qed.

Lemma abs_sub_nan (x y : float) : is_nan x = true -> is_nan (abs (x - y)) = true.
Proof.
  rewrite !is_nan_spec, abs_spec, sub_spec. intros ->. reflexivity.
Qed.

(** X18.  A sequence with a probability that is not a number and no
    negative probability is accepted with any tolerance: such a
    probability is below no number, and it makes the sum a value that
    is not a number, whose distance to 1 is above no tolerance. *)
Theorem PMF_init_accepts_nan {V : Type} (data : list (float * V))
    (epsilon : float) :
  (exists p v, In (p, v) data /\ is_nan p = true) ->
  (forall p v, In (p, v) data -> (p <? 0) = false) ->
  PMF.__init__ data epsilon = Ok (PMF.Build data).
Proof.
  intros (p & v & Hin & Hnan) Hpos.
  assert (Hne : data <> []) by (intros ->; destruct Hin).
  destruct (PMF_init_float_cases data epsilon Hne)
    as [[Hn _] | [(_ & Ho & _) | (_ & _ & H)]]; [| |exact H].
  - apply existsb_negative_iff in Hn. destruct Hn as (q & w & Hq & Hlt).
    rewrite (Hpos q w Hq) in Hlt. discriminate.
  - rewrite gtb_nan in Ho; [discriminate|].
    apply abs_sub_nan, (builtin_sum_nan _ p); [|exact Hnan].
    apply in_map_iff. exists (p, v). split; [reflexivity | exact Hin].
Qed.

(** *** Rupture dimensions *)

Lemma py_div_ok (x y : float) : (y =? 0) = false -> py_div x y = Ok (x / y).
Proof. intros H. unfold py_div. now rewrite H. Qed.


(** *** The rupture surface *)




(** *** The exceptions of the arithmetic *)

Lemma math_1_raises (f : float -> float) (x : float) (e : exn) :
  math_1 f x = Raise e -> e = ValueError "math domain error".
Proof.
  unfold math_1. destruct (_ && _); [congruence|].
  destruct (_ && _); congruence.
Qed.

Lemma py_div_raises (x y : float) (e : exn) :
  py_div x y = Raise e ->
  e = ZeroDivisionError "float division by zero" /\ (y =? 0) = true.
Proof.
  unfold py_div. destruct (y =? 0); [|discriminate].
  intros H. injection H as <-. split; reflexivity.
Qed.

Lemma py_div_zero (x y : float) :
  (y =? 0) = true ->
  py_div x y = Raise (ZeroDivisionError "float division by zero").
Proof. intros H. unfold py_div. now rewrite H. Qed.

(** [x % 360] does not raise. *)
Lemma py_mod_360 (ext : Externals) (x : float) :
  exists m, py_mod ext x 360 = Ok m.
Proof.
  unfold py_mod. change (360 =? 0) with false. cbv iota.
  destruct (_ =? 0); [eauto|]. destruct (xorb _ _); eauto.
Qed.

Lemma is_nan_false (x : float) :
  Prim2SF x <> S754_nan -> is_nan x = false.
Proof.
  intros H. destruct (is_nan x) eqn:Hn; [|reflexivity].
  now apply is_nan_spec in Hn.
Qed.

(** The square root of a negative number is not a number, and the
    square root of a zero is that zero. *)
Lemma sqrt_negative (p : float) :
  (p <? 0) = true -> math_sqrt p = Raise (ValueError "math domain error").
Proof.
  intros Hlt. unfold math_sqrt, math_1.
  assert (is_nan (sqrt p) = true /\ is_nan p = false) as [-> ->];
    [|reflexivity].
  rewrite ltb_spec in Hlt. change (Prim2SF 0) with (S754_zero false) in Hlt.
  rewrite is_nan_spec, sqrt_spec.
  destruct (Prim2SF p) as [s|s| |s m e] eqn:Hp; try discriminate Hlt;
    destruct s; try discriminate Hlt;
    (split; [reflexivity | apply is_nan_false; rewrite Hp; discriminate]).
Qed.

Lemma sqrt_zero (p : float) :
  (p =? 0) = true -> math_sqrt p = Ok (sqrt p) /\ (sqrt p =? 0) = true.
Proof.
  intros Hz. rewrite FloatAxioms.eqb_spec in Hz.
  change (Prim2SF 0) with (S754_zero false) in Hz.
  assert (Hs : exists s, Prim2SF (sqrt p) = S754_zero s).
  { rewrite sqrt_spec.
    destruct (Prim2SF p) as [s|s| |s m e]; try discriminate Hz;
      [eauto | destruct s; discriminate Hz | destruct s; discriminate Hz]. }
  destruct Hs as [s Hs]. split.
  - unfold math_sqrt, math_1.
    rewrite (is_nan_false (sqrt p)) by (rewrite Hs; discriminate).
    cbn [andb]. unfold is_infinity.
    rewrite FloatAxioms.eqb_spec, abs_spec, Hs. reflexivity.
  - rewrite FloatAxioms.eqb_spec, Hs. reflexivity.
Qed.

(** X16.  The exceptions of [_get_rupture_dimensions] are those of its
    arithmetic: the domain error of [math.sqrt] when the area times the
    aspect ratio is negative, the division by zero when that product is
    zero, and the division by zero when the sine of the dip is zero.
    Nothing else is raised. *)
Theorem get_rupture_dimensions_exceptions (ext : Externals)
    (self : PointSource) (mag : float) (np : NodalPlane) :
  let area :=
    get_median_area (magnitude_scaling_relationship self) mag (rake np) in
  let product := area * rupture_aspect_ratio self in
  let dimensions := _get_rupture_dimensions ext self mag np in
  (forall e, dimensions = Raise e ->
     e = ValueError "math domain error" \/
     e = ZeroDivisionError "float division by zero")
  /\ ((product <? 0) = true ->
      dimensions = Raise (ValueError "math domain error"))
  /\ ((product =? 0) = true ->
      dimensions = Raise (ZeroDivisionError "float division by zero"))
  /\ (forall sin_rdip,
        math_sqrt product = Ok (sqrt product) ->
        (sqrt product =? 0) = false ->
        math_sin ext (radians (dip np)) = Ok sin_rdip ->
        (sin_rdip =? 0) = true ->
        dimensions = Raise (ZeroDivisionError "float division by zero")).
Proof.
  intros area product dimensions. subst dimensions.
  unfold _get_rupture_dimensions. fold area. fold product.
  split; [|split; [|split]].
  - intros e.
    destruct (math_sqrt product) as [l|e1] eqn:H1; cbn [rbind];
      [|intros H; injection H as <-; left; exact (math_1_raises _ _ _ H1)].
    destruct (py_div area l) as [w|e2] eqn:H2; cbn [rbind];
      [|intros H; injection H as <-; right;
        exact (proj1 (py_div_raises _ _ _ H2))].
    destruct (math_sin ext _) as [s|e3] eqn:H3; cbn [rbind];
      [|intros H; injection H as <-; left; exact (math_1_raises _ _ _ H3)].
    destruct (py_div _ s) as [mw|e4] eqn:H4; cbn [rbind];
      [|intros H; injection H as <-; right;
        exact (proj1 (py_div_raises _ _ _ H4))].
    destruct (gtb w mw); [|discriminate].
    destruct (py_div area mw) as [l'|e5] eqn:H5; cbn [rbind]; [discriminate|].
    intros H; injection H as <-; right.
    exact (proj1 (py_div_raises _ _ _ H5)).
  - intros Hneg. now rewrite (sqrt_negative _ Hneg).
  - intros Hz. destruct (sqrt_zero _ Hz) as [-> Hs]. cbn [rbind].
    now rewrite (py_div_zero _ _ Hs).
  - intros s Hsqrt Hl Hsin Hs. rewrite Hsqrt. cbn [rbind].
    rewrite (py_div_ok _ _ Hl). cbn [rbind]. rewrite Hsin. cbn [rbind].
    now rewrite (py_div_zero _ _ Hs).
Qed.

(** X17.  [_get_rupture_surface] raises [AssertionError] exactly when
    the depth of the hypocenter is not between the two seismogenic
    depths (a depth that is not a number is not between them); what
    else it raises is an exception of its arithmetic. *)
Theorem get_rupture_surface_exceptions (ext : Externals)
    (self : PointSource) (mag : float) (np : NodalPlane) (hypocenter : Point) :
  let surface := _get_rupture_surface ext self mag np hypocenter in
  (surface = Raise AssertionError <->
   (upper_seismogenic_depth self <=? depth hypocenter)
   && (depth hypocenter <=? lower_seismogenic_depth self) = false)
  /\ (forall e, surface = Raise e ->
        e = AssertionError \/
        e = ValueError "math domain error" \/
        e = ZeroDivisionError "float division by zero").
Proof.
  intros surface.
  assert (Hin : (upper_seismogenic_depth self <=? depth hypocenter)
                && (depth hypocenter <=? lower_seismogenic_depth self) = true ->
                forall e, surface = Raise e ->
                e = ValueError "math domain error" \/
                e = ZeroDivisionError "float division by zero").
  { intros Hpre e. subst surface. unfold _get_rupture_surface, geb.
    rewrite Hpre. cbn [negb].
    destruct (py_mod_360 ext (strike np + 90)) as [d ->]. cbn [rbind].
    destruct (py_mod_360 ext (d + 90)) as [l ->]. cbn [rbind].
    destruct (py_mod_360 ext (l + 90)) as [u ->]. cbn [rbind].
    destruct (_get_rupture_dimensions ext self mag np) as [[rl rw]|e1] eqn:H1;
      cbn [rbind];
      [|intros H; injection H as <-;
        exact (proj1 (get_rupture_dimensions_exceptions ext self mag np)
                 _ H1)].
    destruct (math_sin ext _) as [s|e2] eqn:H2; cbn [rbind];
      [|intros H; injection H as <-; left; exact (math_1_raises _ _ _ H2)].
    destruct (math_cos ext _) as [c|e3] eqn:H3; cbn [rbind];
      [|intros H; injection H as <-; left; exact (math_1_raises _ _ _ H3)].
    destruct (rupture_center_of _ _ _ _ _ _) as [center|e4] eqn:H4;
      cbn [rbind].
    - destruct (corners _ _ _ _ _ _ _ _ _) as [[[? ?] ?] ?]. discriminate.
    - intros H; injection H as <-.
      unfold rupture_center_of in H4. destruct (neqb _ _); [|discriminate].
      destruct (math_tan ext _) as [t|e5] eqn:H5; cbn [rbind] in H4;
        [|injection H4 as <-; left; exact (math_1_raises _ _ _ H5)].
      destruct (py_div _ t) as [q|e6] eqn:H6; cbn [rbind] in H4;
        [discriminate|].
      injection H4 as <-. right. exact (proj1 (py_div_raises _ _ _ H6)). }
  destruct ((upper_seismogenic_depth self <=? depth hypocenter)
            && (depth hypocenter <=? lower_seismogenic_depth self)) eqn:Hpre.
  - specialize (Hin eq_refl). split.
    + split; [|discriminate]. intros H. destruct (Hin _ H); discriminate.
    + intros e He. right. exact (Hin e He).
  - assert (Hs : surface = Raise AssertionError).
    { subst surface. unfold _get_rupture_surface, geb. now rewrite Hpre. }
    split; [split; [reflexivity | intros _; exact Hs]|].
    intros e He. rewrite Hs in He. injection He as <-. now left.
Qed.

(** *** The code on concrete inputs *)







Lemma PMF_init_accepts_nan_witness :
  (exists p v, In (p, v) [(0.5, 1%nat); (nan, 2%nat)] /\ is_nan p = true)
  /\ (forall p v, In (p, v) [(0.5, 1%nat); (nan, 2%nat)] -> (p <? 0) = false)
  /\ PMF.__init__ [(0.5, 1%nat); (nan, 2%nat)] PMF.epsilon_default =
       Ok (PMF.Build [(0.5, 1%nat); (nan, 2%nat)]).
Proof.
  assert (Hnan : exists p v,
            In (p, v) [(0.5, 1%nat); (nan, 2%nat)] /\ is_nan p = true)
    by (exists nan, 2%nat; split; [right; left; reflexivity | reflexivity]).
  assert (Hpos : forall p v,
            In (p, v) [(0.5, 1%nat); (nan, 2%nat)] -> (p <? 0) = false)
    by (intros p v [H | [H | []]]; injection H as <- _; reflexivity).
  split; [exact Hnan|]. split; [exact Hpos|].
  exact (PMF_init_accepts_nan _ PMF.epsilon_default Hnan Hpos).
Defined.

(** Fifty-four probabilities of 1/54 add up to 0.9999999999999989 in
    binary64 and are rejected with the default tolerance; two halves
    with twenty times 2^-54 between them add up to 1 and are accepted;
    a probability that is not a number passes both checks. *)
Example PMF_rounded_sum_rejected :
  PMF.__init__ (repeat (1 / 54, tt) 54) PMF.epsilon_default =
  Raise (ValueError "probabilities %s do not sum up to 1.0").
Proof. vm_compute. reflexivity. Qed.

Example PMF_rounded_sum_accepted :
  is_ok (PMF.__init__ ((0.5, tt) :: repeat (0x1p-54, tt) 20 ++ [(0.5, tt)])
           PMF.epsilon_default).
Proof. vm_compute. exact I. Qed.

Example PMF_nan_accepted :
  PMF.__init__ [(nan, tt)] PMF.epsilon_default = Ok (PMF.Build [(nan, tt)]).
Proof. vm_compute. reflexivity. Qed.

(** Probabilities that sum to 1.5, and a probability of -0.1. *)
Example PMF_sum_too_large :
  PMF.__init__ [(0.5, 1%nat); (1, 2%nat)] PMF.epsilon_default =
  Raise (ValueError "probabilities %s do not sum up to 1.0").
Proof. vm_compute. reflexivity. Qed.

Example PMF_negative_probability :
  PMF.__init__ [(-0.1, 1%nat); (1.1, 2%nat)] PMF.epsilon_default =
  Raise (ValueError "a probability in %s is not positive").
Proof. vm_compute. reflexivity. Qed.

End Binary64Properties.
